(** * A todo-record service: query construction, soft delete and the API-key gate

    Shallow embedding of [app/schemas.py], [app/models.py] and [app/main.py].
    The table [todos] is a list of rows in insertion order; a query is the
    list of rows it would return, so [filter], [order_by], [offset], [limit],
    [first], [count] and [all] are list functions.  Timestamps are integers
    (microseconds since the epoch); strings are sequences of 8-bit
    characters.

    [app/db.py], which builds the engine and the session factory, leaves
    the storage engine open.  The queries of [main.py] see the engine in
    three places only: whether LIKE treats the backslash as an escape
    character, how [lower()] folds the case of a character, and on which
    side of the non-null values ORDER BY puts NULL.  All three are fields
    of [Engine], a parameter of the development.  The engines agree on the
    ASCII letters; what they fold beyond them is theirs to choose. *)

From Stdlib Require Import ZArith List String Ascii Bool Lia Sorted Permutation.
Import ListNotations.
Open Scope Z_scope.

(** ** Exceptions and the handlers' monad *)

Inductive Exn :=
| HTTPException (status_code : Z) (detail : string)
| RequestValidationError
| IntegrityError
| TypeError
| AttributeError.

Inductive Raises (A : Type) :=
| Return (a : A)
| Raise (e : Exn).
Arguments Return {A} a.
Arguments Raise {A} e.

Definition bind {A B} (m : Raises A) (k : A -> Raises B) : Raises B :=
  match m with
  | Return a => k a
  | Raise e => Raise e
  end.

Notation "x <- m ;; k" := (bind m (fun x => k))
  (at level 61, m at next level, right associativity).
Notation "' p <- m ;; k" := (bind m (fun p => k))
  (at level 61, p pattern, m at next level, right associativity).

(** ** The storage engine, as far as the queries of [main.py] see it *)

Record Engine := {
  like_backslash_escape : bool;
  lower_char : ascii -> ascii;
  nulls_sort_first : bool
}.

Module Sql.

(** A column value, as ORDER BY compares it. *)
Inductive Value :=
| VNull
| VInt (n : Z)
| VStr (s : string)
| VBool (b : bool)
| VTime (t : Z).

(** Case folding that knows the letters A to Z only. *)
Definition lower_ascii (c : ascii) : ascii :=
  let n := N_of_ascii c in
  if (N.leb 65 n && N.leb n 90)%bool then ascii_of_N (n + 32) else c.

(** Case folding that also knows the accented capitals of Latin-1. *)
Definition lower_latin1 (c : ascii) : ascii :=
  let n := N_of_ascii c in
  if (N.leb 65 n && N.leb n 90
      || N.leb 192 n && N.leb n 222 && negb (N.eqb n 215))%bool
  then ascii_of_N (n + 32) else c.

(** [lower(s)], character by character. *)
Fixpoint lower (lower_char : ascii -> ascii) (s : string) : string :=
  match s with
  | EmptyString => EmptyString
  | String c s' => String (lower_char c) (lower lower_char s')
  end.

(** [like esc pat s]: the SQL predicate [s LIKE pat].  ["%"] matches any
    run of characters, ["_"] any one character; with [esc] a backslash
    makes the next pattern character literal. *)
Fixpoint like (esc : bool) (pat s : string) : bool :=
  match pat with
  | EmptyString =>
      match s with EmptyString => true | String _ _ => false end
  | String c pat' =>
      if Ascii.eqb c "%" then
        (fix skip (s : string) : bool :=
           like esc pat' s
           || match s with
              | EmptyString => false
              | String _ s' => skip s'
              end) s
      else if Ascii.eqb c "_" then
        match s with
        | EmptyString => false
        | String _ s' => like esc pat' s'
        end
      else if esc && Ascii.eqb c "\" then
        match pat' with
        | EmptyString => false
        | String d pat'' =>
            match s with
            | EmptyString => false
            | String x s' => Ascii.eqb d x && like esc pat'' s'
            end
        end
      else
        match s with
        | EmptyString => false
        | String x s' => Ascii.eqb c x && like esc pat' s'
        end
  end.

(** [column.ilike(pat)]: LIKE on the operands as the engine lower-cases
    them. *)
Definition ilike (eng : Engine) (col pat : string) : bool :=
  like (like_backslash_escape eng) (lower (lower_char eng) pat)
    (lower (lower_char eng) col).

(** [column < bound] on a nullable column: NULL compares to nothing. *)
Definition lt_nullable (col : option Z) (bound : Z) : bool :=
  match col with
  | Some v => v <? bound
  | None => false
  end.

Definition isnot_None {A} (col : option A) : bool :=
  match col with
  | Some _ => true
  | None => false
  end.

Definition type_rank (v : Value) : Z :=
  match v with
  | VNull => 0
  | VInt _ => 1
  | VStr _ => 2
  | VBool _ => 3
  | VTime _ => 4
  end.

(** The order ORDER BY ... ASC sorts by. *)
Definition value_leb (eng : Engine) (a b : Value) : bool :=
  match a, b with
  | VNull, VNull => true
  | VNull, _ => nulls_sort_first eng
  | _, VNull => negb (nulls_sort_first eng)
  | VInt x, VInt y => x <=? y
  | VStr x, VStr y => String.leb x y
  | VBool x, VBool y => implb x y
  | VTime x, VTime y => x <=? y
  | _, _ => type_rank a <=? type_rank b
  end.

Section Query.
Context {Row : Type}.

Fixpoint insert_by (leb : Row -> Row -> bool) (x : Row) (l : list Row)
  : list Row :=
  match l with
  | [] => [x]
  | y :: l' => if leb x y then x :: l else y :: insert_by leb x l'
  end.

(** [query.order_by(col.asc())] and [query.order_by(col.desc())]. *)
Definition order_by (eng : Engine) (col : Row -> Value) (desc : bool)
    (query : list Row) : list Row :=
  let leb x y :=
    if desc then value_leb eng (col y) (col x)
    else value_leb eng (col x) (col y) in
  fold_right (insert_by leb) [] query.

Definition offset (n : Z) (query : list Row) : list Row :=
  skipn (Z.to_nat n) query.

Definition limit (n : Z) (query : list Row) : list Row :=
  firstn (Z.to_nat n) query.

Definition all (query : list Row) : list Row := query.

Definition first (query : list Row) : option Row := hd_error query.

Definition count (query : list Row) : Z := Z.of_nat (List.length query).
End Query.

End Sql.

(** ** [schemas.py] *)

Module Schemas.

Inductive Priority := HIGH | MEDIUM | LOW.

Definition int (p : Priority) : Z :=
  match p with
  | HIGH => 1
  | MEDIUM => 2
  | LOW => 3
  end.

Definition is_Priority (v : Z) : bool :=
  existsb (fun p => v =? int p) [HIGH; MEDIUM; LOW].

(** A [Literal[...]] type is the list of its members. *)
Definition literal (members : list string) (v : string) : bool :=
  existsb (String.eqb v) members.

Definition TodoStatus : list string :=
  ["NEW"; "IN_PROGRESS"; "DONE"]%string.

Definition SortBy : list string :=
  ["todo_id"; "todo_name"; "priority"; "status"; "due_date";
   "created_at"; "updated_at"]%string.

Definition OrderBy : list string := ["asc"; "desc"]%string.

Definition ExportFormat : list string := ["json"; "csv"]%string.

Definition length_between (lo hi : nat) (s : string) : bool :=
  (Nat.leb lo (String.length s) && Nat.leb (String.length s) hi)%bool.

(** A field of a request body: left out, or given (possibly as null).
    [model_dump(exclude_unset=True)] keeps the given ones. *)
Inductive Field (A : Type) :=
| Omitted
| Given (a : A).
Arguments Omitted {A}.
Arguments Given {A} a.

(** Whether an [Optional[...]] field passes its constraint. *)
Definition optional_ok {A} (ok : A -> bool) (f : Field (option A)) : bool :=
  match f with
  | Given (Some v) => ok v
  | _ => true
  end.

(** [TodoBase], and so [TodoCreate] and [TodoReplace]: the body with the
    defaults filled in for the fields it leaves out. *)
Module TodoBase.
Record t := {
  todo_name : string;
  todo_description : string;
  priority : Z;
  status : string;
  due_date : option Z
}.

Definition valid (b : t) : bool :=
  (length_between 3 512 (todo_name b)
   && length_between 1 2000 (todo_description b)
   && is_Priority (priority b)
   && literal TodoStatus (status b))%bool.
End TodoBase.

Module TodoUpdate.
Record t := {
  todo_name : Field (option string);
  todo_description : Field (option string);
  priority : Field (option Z);
  status : Field (option string);
  due_date : Field (option Z)
}.

Definition valid (u : t) : bool :=
  (optional_ok (length_between 3 512) (todo_name u)
   && optional_ok (length_between 1 2000) (todo_description u)
   && optional_ok is_Priority (priority u)
   && optional_ok (literal TodoStatus) (status u))%bool.
End TodoUpdate.

Module TodoStatusUpdate.
Record t := { status : string }.

Definition valid (u : t) : bool := literal TodoStatus (status u).
End TodoStatusUpdate.

Module TodoStats.
Record t := {
  total : Z;
  high : Z;
  medium : Z;
  low : Z
}.
End TodoStats.

End Schemas.

(** ** [models.py] *)

Module TodoModel.

(** A row of [todos]. *)
Record t := {
  todo_id : Z;
  todo_name : string;
  todo_description : string;
  priority : Z;
  status : string;
  due_date : option Z;
  is_deleted : bool;
  created_at : Z;
  updated_at : Z
}.

Definition nullable (v : option Z) : Sql.Value :=
  match v with
  | Some d => Sql.VTime d
  | None => Sql.VNull
  end.

(** [getattr(TodoModel, name)]: the column of that name. *)
Definition getattr (name : string) : option (t -> Sql.Value) :=
  if String.eqb name "todo_id" then Some (fun r => Sql.VInt (todo_id r))
  else if String.eqb name "todo_name" then Some (fun r => Sql.VStr (todo_name r))
  else if String.eqb name "todo_description" then
    Some (fun r => Sql.VStr (todo_description r))
  else if String.eqb name "priority" then Some (fun r => Sql.VInt (priority r))
  else if String.eqb name "status" then Some (fun r => Sql.VStr (status r))
  else if String.eqb name "due_date" then Some (fun r => nullable (due_date r))
  else if String.eqb name "is_deleted" then Some (fun r => Sql.VBool (is_deleted r))
  else if String.eqb name "created_at" then Some (fun r => Sql.VTime (created_at r))
  else if String.eqb name "updated_at" then Some (fun r => Sql.VTime (updated_at r))
  else None.

(** A loaded instance: the row it was read from and its attributes, which
    Python lets hold [None] until the next flush. *)
Record instance := {
  loaded : t;
  attr_todo_name : option string;
  attr_todo_description : option string;
  attr_priority : option Z;
  attr_status : option string;
  attr_due_date : option Z;
  attr_is_deleted : bool
}.

Definition load (r : t) : instance :=
  {| loaded := r;
     attr_todo_name := Some (todo_name r);
     attr_todo_description := Some (todo_description r);
     attr_priority := Some (priority r);
     attr_status := Some (status r);
     attr_due_date := due_date r;
     attr_is_deleted := is_deleted r |}.

Definition set_todo_name (o : instance) (v : option string) : instance :=
  {| loaded := loaded o;
     attr_todo_name := v;
     attr_todo_description := attr_todo_description o;
     attr_priority := attr_priority o;
     attr_status := attr_status o;
     attr_due_date := attr_due_date o;
     attr_is_deleted := attr_is_deleted o |}.

Definition set_todo_description (o : instance) (v : option string)
  : instance :=
  {| loaded := loaded o;
     attr_todo_name := attr_todo_name o;
     attr_todo_description := v;
     attr_priority := attr_priority o;
     attr_status := attr_status o;
     attr_due_date := attr_due_date o;
     attr_is_deleted := attr_is_deleted o |}.

Definition set_priority (o : instance) (v : option Z) : instance :=
  {| loaded := loaded o;
     attr_todo_name := attr_todo_name o;
     attr_todo_description := attr_todo_description o;
     attr_priority := v;
     attr_status := attr_status o;
     attr_due_date := attr_due_date o;
     attr_is_deleted := attr_is_deleted o |}.

Definition set_status (o : instance) (v : option string) : instance :=
  {| loaded := loaded o;
     attr_todo_name := attr_todo_name o;
     attr_todo_description := attr_todo_description o;
     attr_priority := attr_priority o;
     attr_status := v;
     attr_due_date := attr_due_date o;
     attr_is_deleted := attr_is_deleted o |}.

Definition set_due_date (o : instance) (v : option Z) : instance :=
  {| loaded := loaded o;
     attr_todo_name := attr_todo_name o;
     attr_todo_description := attr_todo_description o;
     attr_priority := attr_priority o;
     attr_status := attr_status o;
     attr_due_date := v;
     attr_is_deleted := attr_is_deleted o |}.

Definition set_is_deleted (o : instance) (v : bool) : instance :=
  {| loaded := loaded o;
     attr_todo_name := attr_todo_name o;
     attr_todo_description := attr_todo_description o;
     attr_priority := attr_priority o;
     attr_status := attr_status o;
     attr_due_date := attr_due_date o;
     attr_is_deleted := v |}.

Definition option_eqb {A} (eqb : A -> A -> bool) (x y : option A) : bool :=
  match x, y with
  | Some a, Some b => eqb a b
  | None, None => true
  | _, _ => false
  end.

(** Whether the attributes differ from the loaded row: only then is an
    UPDATE sent, and only an UPDATE fires [onupdate=func.now()]. *)
Definition dirty (o : instance) : bool :=
  negb (option_eqb String.eqb (attr_todo_name o) (Some (todo_name (loaded o)))
        && option_eqb String.eqb (attr_todo_description o)
             (Some (todo_description (loaded o)))
        && option_eqb Z.eqb (attr_priority o) (Some (priority (loaded o)))
        && option_eqb String.eqb (attr_status o) (Some (status (loaded o)))
        && option_eqb Z.eqb (attr_due_date o) (due_date (loaded o))
        && Bool.eqb (attr_is_deleted o) (is_deleted (loaded o))).

(** The row a flush writes at time [now]; the four [nullable=False]
    columns reject [None]. *)
Definition flush (now : Z) (o : instance) : Raises t :=
  match attr_todo_name o, attr_todo_description o,
        attr_priority o, attr_status o with
  | Some n, Some d, Some p, Some s =>
      Return {| todo_id := todo_id (loaded o);
                todo_name := n;
                todo_description := d;
                priority := p;
                status := s;
                due_date := attr_due_date o;
                is_deleted := attr_is_deleted o;
                created_at := created_at (loaded o);
                updated_at := if dirty o then now
                              else updated_at (loaded o) |}
  | _, _, _, _ => Raise IntegrityError
  end.

End TodoModel.

(** ** [main.py] *)

Module Main.
Import Schemas.

(** The table [todos]. *)
Definition DB := list TodoModel.t.

(** What a [Session] does to the table. *)
Module Session.

(** The id an INSERT assigns: rows are never removed, so one past the
    largest id in the table. *)
Definition next_id (db : DB) : Z :=
  1 + fold_right Z.max 0 (map TodoModel.todo_id db).

(** [db.add(TodoModel(...)); db.commit(); db.refresh(...)]: [is_deleted]
    takes its default, both timestamps the server's [now()]. *)
Definition add (db : DB) (now : Z) (todo_name todo_description : string)
    (priority : Z) (status : string) (due_date : option Z)
  : DB * TodoModel.t :=
  let row :=
    {| TodoModel.todo_id := next_id db;
       TodoModel.todo_name := todo_name;
       TodoModel.todo_description := todo_description;
       TodoModel.priority := priority;
       TodoModel.status := status;
       TodoModel.due_date := due_date;
       TodoModel.is_deleted := false;
       TodoModel.created_at := now;
       TodoModel.updated_at := now |} in
  (db ++ [row], row).

(** [db.commit(); db.refresh(todo)] after attribute writes: the flushed
    row replaces the row of the same primary key. *)
Definition commit (db : DB) (now : Z) (todo : TodoModel.instance)
  : Raises (DB * TodoModel.t) :=
  row <- TodoModel.flush now todo ;;
  Return
    (map (fun r =>
            if TodoModel.todo_id r =? TodoModel.todo_id row
            then row else r) db,
     row).

End Session.

Inductive Json :=
| JNull
| JInt (n : Z)
| JStr (s : string)
| JBool (b : bool)
| JDatetime (t : Z).

(** A value handed to [csv.writer]; [CIsoformat t] is [t.isoformat()]. *)
Inductive Cell :=
| CInt (n : Z)
| CStr (s : string)
| CBool (b : bool)
| CIsoformat (t : Z).

Inductive Content :=
| Health (status : string)
| Todo (todo : TodoModel.t)
| Todos (todos : list TodoModel.t)
| ExportJson (objects : list (list (string * Json)))
| ExportCsv (rows : list (list Cell))
| Stats (stats : TodoStats.t)
| NoContent
| ErrorEnvelope (error : string) (detail : option string)
| InternalServerError.

Record Response := {
  status_code : Z;
  content : Content
}.

(** The query string of [GET /todos]: [None] is a parameter left out. *)
Module ListQuery.
Record t := {
  limit : option Z;
  offset : option Z;
  priority : option Z;
  status : option string;
  q : option string;
  overdue : option bool;
  sort_by : option string;
  order : option string;
  include_deleted : option bool
}.
End ListQuery.

Inductive Request :=
| GET_health
| GET_todos (query : ListQuery.t)
| GET_todos_export (format : option string) (include_deleted : option bool)
| GET_todos_stats (include_deleted : option bool)
| GET_todo (todo_id : Z)
| POST_todos (x_api_key : option string) (todo : TodoBase.t)
| PUT_todo (x_api_key : option string) (todo_id : Z) (payload : TodoBase.t)
| PATCH_todo (x_api_key : option string) (todo_id : Z)
    (payload : TodoUpdate.t)
| PATCH_todo_status (x_api_key : option string) (todo_id : Z)
    (payload : TodoStatusUpdate.t)
| POST_todo_restore (x_api_key : option string) (todo_id : Z)
| DELETE_todo (x_api_key : option string) (todo_id : Z).

(** A parameter left out takes its declared default. *)
Definition default {A} (d : A) (v : option A) : A :=
  match v with
  | Some a => a
  | None => d
  end.

Definition optional {A} (ok : A -> bool) (v : option A) : bool :=
  match v with
  | Some a => ok a
  | None => true
  end.

Definition validated (ok : bool) : Raises unit :=
  if ok then Return tt else Raise RequestValidationError.

Definition http_exception_handler (status_code : Z) (detail : string)
  : Response :=
  {| status_code := status_code;
     content := ErrorEnvelope "HTTPException" (Some detail) |}.

Definition validation_exception_handler : Response :=
  {| status_code := 422;
     content := ErrorEnvelope "ValidationError" None |}.

(** An exception on its way out of a route. *)
Definition exception_response (e : Exn) : Response :=
  match e with
  | HTTPException status_code detail =>
      http_exception_handler status_code detail
  | RequestValidationError => validation_exception_handler
  | IntegrityError | TypeError | AttributeError =>
      {| status_code := 500; content := InternalServerError |}
  end.

(** A read route: the table stays as it is. *)
Definition reads (db : DB) (r : Raises Content) : DB * Response :=
  match r with
  | Return c => (db, {| status_code := 200; content := c |})
  | Raise e => (db, exception_response e)
  end.

(** A write route: the table changes only when the handler returns. *)
Definition writes {A} (db : DB) (status_code : Z) (render : A -> Content)
    (r : Raises (DB * A)) : DB * Response :=
  match r with
  | Return (db', a) =>
      (db', {| status_code := status_code; content := render a |})
  | Raise e => (db, exception_response e)
  end.

Definition get_or_404 (db : DB) (todo_id : Z) (include_deleted : bool)
  : Raises TodoModel.t :=
  let q := filter (fun t => TodoModel.todo_id t =? todo_id) db in
  let q :=
    if negb include_deleted
    then filter (fun t => Bool.eqb (TodoModel.is_deleted t) false) q
    else q in
  match Sql.first q with
  | Some todo => Return todo
  | None => Raise (HTTPException 404 "Todo not found")
  end.

Definition seed_data (db : DB) (now db_now : Z) : DB :=
  match
    Sql.first (filter (fun t => Bool.eqb (TodoModel.is_deleted t) false) db)
  with
  | Some _ => db
  | None =>
      let db := fst (Session.add db db_now "Sports" "Go to the Gym"
                       (int MEDIUM) "IN_PROGRESS" None) in
      let db := fst (Session.add db db_now "Clean house"
                       "Cleaning the house thoroughly"
                       (int HIGH) "NEW" None) in
      let db := fst (Session.add db db_now "Read"
                       "Read chapter 5 of the book"
                       (int LOW) "DONE" None) in
      let db := fst (Session.add db db_now "Work"
                       "Complete project documentation"
                       (int MEDIUM) "NEW" (Some now)) in
      let db := fst (Session.add db db_now "Study"
                       "Prepare for upcoming exam"
                       (int LOW) "NEW" None) in
      db
  end.

Definition health : Content := Health "ok".

Section App.
(** [API_KEY], read from the environment when the module is loaded, and
    the engine behind [SessionLocal]. *)
Variable API_KEY : string.
Variable engine : Engine.

Definition require_api_key (x_api_key : string) : Raises unit :=
  if negb (String.eqb x_api_key API_KEY)
  then Raise (HTTPException 401 "Invalid or missing API key")
  else Return tt.

(** [list_todos], the filters: the query before it is ordered. *)
Definition list_filters (db : DB) (now : Z) (priority : option Z)
    (status_filter q : option string) (overdue : bool)
    (include_deleted : bool) : list TodoModel.t :=
  let query := db in
  let query :=
    if negb include_deleted
    then filter (fun t => Bool.eqb (TodoModel.is_deleted t) false) query
    else query in
  let query :=
    match priority with
    | Some priority =>
        filter (fun t => TodoModel.priority t =? priority) query
    | None => query
    end in
  let query :=
    match status_filter with
    | Some status_filter =>
        filter (fun t => String.eqb (TodoModel.status t) status_filter)
          query
    | None => query
    end in
  let query :=
    match q with
    | Some (String _ _ as q) =>
        let pat := ("%" ++ q ++ "%")%string in
        filter (fun t =>
                  Sql.ilike engine (TodoModel.todo_name t) pat
                  || Sql.ilike engine (TodoModel.todo_description t) pat)
          query
    | _ => query
    end in
  let query :=
    if overdue
    then filter (fun t => Sql.lt_nullable (TodoModel.due_date t) now)
           (filter (fun t => Sql.isnot_None (TodoModel.due_date t)) query)
    else query in
  query.

(** [list_todos], the ordering: the query before the offset and the
    limit are put on it. *)
Definition list_query (db : DB) (now : Z) (priority : option Z)
    (status_filter q : option string) (overdue : bool)
    (sort_by order : string) (include_deleted : bool)
  : Raises (list TodoModel.t) :=
  let query :=
    list_filters db now priority status_filter q overdue include_deleted in
  match TodoModel.getattr sort_by with
  | Some sort_col =>
      Return (Sql.order_by engine sort_col (String.eqb order "desc") query)
  | None => Raise AttributeError
  end.

Definition list_todos (db : DB) (now : Z) (limit offset : Z)
    (priority : option Z) (status_filter q : option string)
    (overdue : bool) (sort_by order : string) (include_deleted : bool)
  : Raises (list TodoModel.t) :=
  query <- list_query db now priority status_filter q overdue sort_by
             order include_deleted ;;
  Return (Sql.all (Sql.limit limit (Sql.offset offset query))).

(** The rows [export_todos] renders, in either format. *)
Definition export_rows (db : DB) (include_deleted : bool)
  : list TodoModel.t :=
  let query := db in
  let query :=
    if negb include_deleted
    then filter (fun t => Bool.eqb (TodoModel.is_deleted t) false) query
    else query in
  Sql.all
    (Sql.order_by engine (fun t => Sql.VInt (TodoModel.todo_id t)) false
       query).

Definition export_json_object (t : TodoModel.t) : list (string * Json) :=
  [("todo_id", JInt (TodoModel.todo_id t));
   ("todo_name", JStr (TodoModel.todo_name t));
   ("todo_description", JStr (TodoModel.todo_description t));
   ("priority", JInt (TodoModel.priority t));
   ("status", JStr (TodoModel.status t));
   ("due_date",
    match TodoModel.due_date t with
    | Some d => JDatetime d
    | None => JNull
    end);
   ("is_deleted", JBool (TodoModel.is_deleted t));
   ("created_at", JDatetime (TodoModel.created_at t));
   ("updated_at", JDatetime (TodoModel.updated_at t))]%string.

Definition export_csv_header : list Cell :=
  map CStr
    ["todo_id"; "todo_name"; "todo_description"; "priority"; "status";
     "due_date"; "is_deleted"; "created_at"; "updated_at"]%string.

Definition export_csv_row (t : TodoModel.t) : list Cell :=
  [CInt (TodoModel.todo_id t);
   CStr (TodoModel.todo_name t);
   CStr (TodoModel.todo_description t);
   CInt (TodoModel.priority t);
   CStr (TodoModel.status t);
   match TodoModel.due_date t with
   | Some d => CIsoformat d
   | None => CStr ""
   end;
   CBool (TodoModel.is_deleted t);
   CIsoformat (TodoModel.created_at t);
   CIsoformat (TodoModel.updated_at t)].

Definition export_todos (db : DB) (format : string)
    (include_deleted : bool) : Content :=
  let todos := export_rows db include_deleted in
  if String.eqb format "json"
  then ExportJson (map export_json_object todos)
  else ExportCsv (export_csv_header :: map export_csv_row todos).

Definition todos_stats (db : DB) (include_deleted : bool) : TodoStats.t :=
  let base := db in
  let base :=
    if negb include_deleted
    then filter (fun t => Bool.eqb (TodoModel.is_deleted t) false) base
    else base in
  let total := Sql.count base in
  let high :=
    Sql.count (filter (fun t => TodoModel.priority t =? int HIGH) base) in
  let medium :=
    Sql.count (filter (fun t => TodoModel.priority t =? int MEDIUM) base) in
  let low :=
    Sql.count (filter (fun t => TodoModel.priority t =? int LOW) base) in
  {| TodoStats.total := total;
     TodoStats.high := high;
     TodoStats.medium := medium;
     TodoStats.low := low |}.

Definition get_todo (db : DB) (todo_id : Z) : Raises TodoModel.t :=
  get_or_404 db todo_id false.

Definition create_todo (db : DB) (now : Z) (todo : TodoBase.t)
  : Raises (DB * TodoModel.t) :=
  Return
    (Session.add db now (TodoBase.todo_name todo)
       (TodoBase.todo_description todo) (TodoBase.priority todo)
       (TodoBase.status todo) (TodoBase.due_date todo)).

Definition replace_todo (db : DB) (now : Z) (todo_id : Z)
    (payload : TodoBase.t) : Raises (DB * TodoModel.t) :=
  todo <- get_or_404 db todo_id false ;;
  let todo := TodoModel.load todo in
  let todo :=
    TodoModel.set_todo_name todo (Some (TodoBase.todo_name payload)) in
  let todo :=
    TodoModel.set_todo_description todo
      (Some (TodoBase.todo_description payload)) in
  let todo :=
    TodoModel.set_priority todo (Some (TodoBase.priority payload)) in
  let todo := TodoModel.set_status todo (Some (TodoBase.status payload)) in
  let todo := TodoModel.set_due_date todo (TodoBase.due_date payload) in
  Session.commit db now todo.

Definition update_todo (db : DB) (now : Z) (todo_id : Z)
    (payload : TodoUpdate.t) : Raises (DB * TodoModel.t) :=
  todo <- get_or_404 db todo_id false ;;
  let todo := TodoModel.load todo in
  let todo :=
    match TodoUpdate.todo_name payload with
    | Given v => TodoModel.set_todo_name todo v
    | Omitted => todo
    end in
  let todo :=
    match TodoUpdate.todo_description payload with
    | Given v => TodoModel.set_todo_description todo v
    | Omitted => todo
    end in
  todo <- match TodoUpdate.priority payload with
          | Given (Some v) => Return (TodoModel.set_priority todo (Some v))
          | Given None => Raise TypeError
          | Omitted => Return todo
          end ;;
  let todo :=
    match TodoUpdate.status payload with
    | Given v => TodoModel.set_status todo v
    | Omitted => todo
    end in
  let todo :=
    match TodoUpdate.due_date payload with
    | Given v => TodoModel.set_due_date todo v
    | Omitted => todo
    end in
  Session.commit db now todo.

Definition update_todo_status (db : DB) (now : Z) (todo_id : Z)
    (payload : TodoStatusUpdate.t) : Raises (DB * TodoModel.t) :=
  todo <- get_or_404 db todo_id false ;;
  let todo := TodoModel.load todo in
  let todo :=
    TodoModel.set_status todo (Some (TodoStatusUpdate.status payload)) in
  Session.commit db now todo.

Definition restore_todo (db : DB) (now : Z) (todo_id : Z)
  : Raises (DB * TodoModel.t) :=
  todo <- get_or_404 db todo_id true ;;
  let todo := TodoModel.load todo in
  let todo := TodoModel.set_is_deleted todo false in
  Session.commit db now todo.

Definition delete_todo (db : DB) (now : Z) (todo_id : Z)
  : Raises (DB * unit) :=
  todo <- get_or_404 db todo_id false ;;
  let todo := TodoModel.load todo in
  let todo := TodoModel.set_is_deleted todo true in
  '(db, _) <- Session.commit db now todo ;;
  Return (db, tt).

(** The declared parameters of [list_todos]: defaults, then the bounds
    and the [Literal] types. *)
Definition list_todos_route (db : DB) (now : Z) (query : ListQuery.t)
  : Raises (list TodoModel.t) :=
  let limit := default 10 (ListQuery.limit query) in
  let offset := default 0 (ListQuery.offset query) in
  let priority := ListQuery.priority query in
  let status_filter := ListQuery.status query in
  let q := ListQuery.q query in
  let overdue := default false (ListQuery.overdue query) in
  let sort_by := default "todo_id"%string (ListQuery.sort_by query) in
  let order := default "asc"%string (ListQuery.order query) in
  let include_deleted := default false (ListQuery.include_deleted query) in
  _ <- validated
         ((1 <=? limit) && (limit <=? 100)
          && (0 <=? offset)
          && optional is_Priority priority
          && optional (length_between 1 100) q
          && literal SortBy sort_by
          && literal OrderBy order) ;;
  list_todos db now limit offset priority status_filter q overdue sort_by
    order include_deleted.

Definition export_todos_route (db : DB) (format : option string)
    (include_deleted : option bool) : Raises Content :=
  let format := default "json"%string format in
  let include_deleted := default false include_deleted in
  _ <- validated (literal ExportFormat format) ;;
  Return (export_todos db format include_deleted).

(** The [X-API-Key] header as [require_api_key] receives it. *)
Definition x_api_key_header (x_api_key : option string) : string :=
  default ""%string x_api_key.

(** One request against the table at time [now].  FastAPI solves the
    dependencies of a route, here [require_api_key], before it validates
    the declared path, query and body parameters, and calls the handler
    only when both went through; the session is closed without a commit
    when an exception is raised, so the table is then as it was. *)
Definition handle (db : DB) (now : Z) (req : Request) : DB * Response :=
  match req with
  | GET_health => reads db (Return health)
  | GET_todos query =>
      reads db (todos <- list_todos_route db now query ;;
                Return (Todos todos))
  | GET_todos_export format include_deleted =>
      reads db (export_todos_route db format include_deleted)
  | GET_todos_stats include_deleted =>
      reads db
        (Return (Stats (todos_stats db (default false include_deleted))))
  | GET_todo todo_id =>
      reads db (_ <- validated (1 <=? todo_id) ;;
                todo <- get_todo db todo_id ;;
                Return (Todo todo))
  | POST_todos x_api_key todo =>
      writes db 201 Todo
        (_ <- require_api_key (x_api_key_header x_api_key) ;;
         _ <- validated (TodoBase.valid todo) ;;
         create_todo db now todo)
  | PUT_todo x_api_key todo_id payload =>
      writes db 200 Todo
        (_ <- require_api_key (x_api_key_header x_api_key) ;;
         _ <- validated ((1 <=? todo_id) && TodoBase.valid payload) ;;
         replace_todo db now todo_id payload)
  | PATCH_todo x_api_key todo_id payload =>
      writes db 200 Todo
        (_ <- require_api_key (x_api_key_header x_api_key) ;;
         _ <- validated ((1 <=? todo_id) && TodoUpdate.valid payload) ;;
         update_todo db now todo_id payload)
  | PATCH_todo_status x_api_key todo_id payload =>
      writes db 200 Todo
        (_ <- require_api_key (x_api_key_header x_api_key) ;;
         _ <- validated
                ((1 <=? todo_id) && TodoStatusUpdate.valid payload) ;;
         update_todo_status db now todo_id payload)
  | POST_todo_restore x_api_key todo_id =>
      writes db 200 Todo
        (_ <- require_api_key (x_api_key_header x_api_key) ;;
         _ <- validated (1 <=? todo_id) ;;
         restore_todo db now todo_id)
  | DELETE_todo x_api_key todo_id =>
      writes db 204 (fun _ : unit => NoContent)
        (_ <- require_api_key (x_api_key_header x_api_key) ;;
         _ <- validated (1 <=? todo_id) ;;
         delete_todo db now todo_id)
  end.

(** The tables the service can hold: empty at first, seeded when the
    process starts, then changed by requests. *)
Inductive reachable : DB -> Prop :=
| reachable_empty : reachable []
| reachable_startup db now db_now :
    reachable db -> reachable (seed_data db now db_now)
| reachable_request db now req :
    reachable db -> reachable (fst (handle db now req)).

End App.

End Main.

(** ** The properties, in the words of the specification *)

Module Spec.








(** An engine that folds the ASCII characters the usual way. *)
Definition folds_ascii (engine : Engine) : Prop :=
  forall c, (N_of_ascii c < 128)%N ->
            lower_char engine c = Sql.lower_ascii c.

(** Strings in byte order. *)
Fixpoint lex_le (a b : string) : Prop :=
  match a, b with
  | EmptyString, _ => True
  | String _ _, EmptyString => False
  | String x a', String y b' =>
      (N_of_ascii x < N_of_ascii y)%N \/ (x = y /\ lex_le a' b')
  end.

(** At most, on the values of a column: integers and instants by size,
    strings in byte order, false before true, NULL at the end the engine
    puts it.  Values of two types never share a column; they go by type. *)
Definition value_le (engine : Engine) (a b : Sql.Value) : Prop :=
  match a, b with
  | Sql.VNull, Sql.VNull => True
  | Sql.VNull, _ => nulls_sort_first engine = true
  | _, Sql.VNull => nulls_sort_first engine = false
  | Sql.VInt x, Sql.VInt y => x <= y
  | Sql.VStr x, Sql.VStr y => lex_le x y
  | Sql.VBool x, Sql.VBool y => x = true -> y = true
  | Sql.VTime x, Sql.VTime y => x <= y
  | _, _ => Sql.type_rank a <= Sql.type_rank b
  end.



(** Monotonic on a column, each row against the next: non-decreasing,
    or non-increasing when [desc]. *)
Definition monotonic (engine : Engine) (col : TodoModel.t -> Sql.Value)
    (desc : bool) (todos : list TodoModel.t) : Prop :=
  Sorted
    (fun a b =>
       if desc then value_le engine (col b) (col a)
       else value_le engine (col a) (col b))
    todos.

(** The page a window of [limit] rows after [offset] cuts out. *)
Definition window {A} (limit offset : Z) (l : list A) : list A :=
  firstn (Z.to_nat limit) (skipn (Z.to_nat offset) l).

(** The rows a response carries, none when it is an error. *)
Definition returned {A} (r : Raises (list A)) : list A :=
  match r with
  | Return l => l
  | Raise _ => []
  end.

Definition not_deleted (t : TodoModel.t) : bool :=
  negb (TodoModel.is_deleted t).

(** [GET /todos] with no parameter given. *)
Definition no_parameters : Main.ListQuery.t :=
  {| Main.ListQuery.limit := None;
     Main.ListQuery.offset := None;
     Main.ListQuery.priority := None;
     Main.ListQuery.status := None;
     Main.ListQuery.q := None;
     Main.ListQuery.overdue := None;
     Main.ListQuery.sort_by := None;
     Main.ListQuery.order := None;
     Main.ListQuery.include_deleted := None |}.

Definition with_sort_by (sort_by : option string) (query : Main.ListQuery.t)
  : Main.ListQuery.t :=
  {| Main.ListQuery.limit := Main.ListQuery.limit query;
     Main.ListQuery.offset := Main.ListQuery.offset query;
     Main.ListQuery.priority := Main.ListQuery.priority query;
     Main.ListQuery.status := Main.ListQuery.status query;
     Main.ListQuery.q := Main.ListQuery.q query;
     Main.ListQuery.overdue := Main.ListQuery.overdue query;
     Main.ListQuery.sort_by := sort_by;
     Main.ListQuery.order := Main.ListQuery.order query;
     Main.ListQuery.include_deleted :=
       Main.ListQuery.include_deleted query |}.

Definition with_include_deleted (include_deleted : option bool)
    (query : Main.ListQuery.t) : Main.ListQuery.t :=
  {| Main.ListQuery.limit := Main.ListQuery.limit query;
     Main.ListQuery.offset := Main.ListQuery.offset query;
     Main.ListQuery.priority := Main.ListQuery.priority query;
     Main.ListQuery.status := Main.ListQuery.status query;
     Main.ListQuery.q := Main.ListQuery.q query;
     Main.ListQuery.overdue := Main.ListQuery.overdue query;
     Main.ListQuery.sort_by := Main.ListQuery.sort_by query;
     Main.ListQuery.order := Main.ListQuery.order query;
     Main.ListQuery.include_deleted := include_deleted |}.

(** The header a mutating request carries, [None] for a read. *)
Definition credential (req : Main.Request) : option (option string) :=
  match req with
  | Main.POST_todos k _ | Main.PUT_todo k _ _ | Main.PATCH_todo k _ _
  | Main.PATCH_todo_status k _ _ | Main.POST_todo_restore k _
  | Main.DELETE_todo k _ => Some k
  | _ => None
  end.


(** The primary key: no two rows share an id. *)
Definition primary_key (db : Main.DB) : Prop :=
  NoDup (map TodoModel.todo_id db).

(** The same row, written at another time. *)
Definition touched (updated_at : Z) (t : TodoModel.t) : TodoModel.t :=
  {| TodoModel.todo_id := TodoModel.todo_id t;
     TodoModel.todo_name := TodoModel.todo_name t;
     TodoModel.todo_description := TodoModel.todo_description t;
     TodoModel.priority := TodoModel.priority t;
     TodoModel.status := TodoModel.status t;
     TodoModel.due_date := TodoModel.due_date t;
     TodoModel.is_deleted := TodoModel.is_deleted t;
     TodoModel.created_at := TodoModel.created_at t;
     TodoModel.updated_at := updated_at |}.

(** A row for the examples. *)
Definition row (todo_id : Z) (todo_name : string) (is_deleted : bool)
  : TodoModel.t :=
  {| TodoModel.todo_id := todo_id;
     TodoModel.todo_name := todo_name;
     TodoModel.todo_description := "notes";
     TodoModel.priority := 3;
     TodoModel.status := "NEW";
     TodoModel.due_date := Some 50;
     TodoModel.is_deleted := is_deleted;
     TodoModel.created_at := 10;
     TodoModel.updated_at := 10 |}.

(** Eleven live rows, ids 1 to 11. *)
Definition eleven : Main.DB :=
  map (fun i => row i "task" false) [1; 2; 3; 4; 5; 6; 7; 8; 9; 10; 11].

(** Every stored priority is one of the three levels. *)
Definition priorities_valid (db : Main.DB) : Prop :=
  Forall (fun t => Schemas.is_Priority (TodoModel.priority t) = true) db.

(** The rows the statistics range over. *)
Definition counted (db : Main.DB) (include_deleted : bool) : Main.DB :=
  if include_deleted then db else filter not_deleted db.

(** How many rows of [l] have priority [p]. *)
Definition with_priority (p : Schemas.Priority) (l : Main.DB) : Z :=
  Z.of_nat
    (List.length
       (filter (fun t => TodoModel.priority t =? Schemas.int p) l)).



(** [GET /todos] with every parameter at its default. *)
Definition default_listing (engine : Engine) (db : Main.DB) (now : Z)
  : Raises (list TodoModel.t) :=
  Main.list_todos_route engine db now no_parameters.

(** A body [TodoBase] accepts. *)
Definition buy_milk : Schemas.TodoBase.t :=
  {| Schemas.TodoBase.todo_name := "Buy milk";
     Schemas.TodoBase.todo_description := "2%";
     Schemas.TodoBase.priority := 2;
     Schemas.TodoBase.status := "NEW";
     Schemas.TodoBase.due_date := None |}.

(** The body [{}] of a partial update. *)
Definition nothing_given : Schemas.TodoUpdate.t :=
  {| Schemas.TodoUpdate.todo_name := Schemas.Omitted;
     Schemas.TodoUpdate.todo_description := Schemas.Omitted;
     Schemas.TodoUpdate.priority := Schemas.Omitted;
     Schemas.TodoUpdate.status := Schemas.Omitted;
     Schemas.TodoUpdate.due_date := Schemas.Omitted |}.

(** The bodies [{"todo_name": null}], [{"todo_description": null}],
    [{"priority": null}], [{"status": null}] and [{"due_date": null}]. *)
Definition null_todo_name : Schemas.TodoUpdate.t :=
  {| Schemas.TodoUpdate.todo_name := Schemas.Given None;
     Schemas.TodoUpdate.todo_description := Schemas.Omitted;
     Schemas.TodoUpdate.priority := Schemas.Omitted;
     Schemas.TodoUpdate.status := Schemas.Omitted;
     Schemas.TodoUpdate.due_date := Schemas.Omitted |}.

Definition null_todo_description : Schemas.TodoUpdate.t :=
  {| Schemas.TodoUpdate.todo_name := Schemas.Omitted;
     Schemas.TodoUpdate.todo_description := Schemas.Given None;
     Schemas.TodoUpdate.priority := Schemas.Omitted;
     Schemas.TodoUpdate.status := Schemas.Omitted;
     Schemas.TodoUpdate.due_date := Schemas.Omitted |}.

Definition null_priority : Schemas.TodoUpdate.t :=
  {| Schemas.TodoUpdate.todo_name := Schemas.Omitted;
     Schemas.TodoUpdate.todo_description := Schemas.Omitted;
     Schemas.TodoUpdate.priority := Schemas.Given None;
     Schemas.TodoUpdate.status := Schemas.Omitted;
     Schemas.TodoUpdate.due_date := Schemas.Omitted |}.

Definition null_status : Schemas.TodoUpdate.t :=
  {| Schemas.TodoUpdate.todo_name := Schemas.Omitted;
     Schemas.TodoUpdate.todo_description := Schemas.Omitted;
     Schemas.TodoUpdate.priority := Schemas.Omitted;
     Schemas.TodoUpdate.status := Schemas.Given None;
     Schemas.TodoUpdate.due_date := Schemas.Omitted |}.

Definition null_due_date : Schemas.TodoUpdate.t :=
  {| Schemas.TodoUpdate.todo_name := Schemas.Omitted;
     Schemas.TodoUpdate.todo_description := Schemas.Omitted;
     Schemas.TodoUpdate.priority := Schemas.Omitted;
     Schemas.TodoUpdate.status := Schemas.Omitted;
     Schemas.TodoUpdate.due_date := Schemas.Given None |}.

Definition is_null {A} (f : Schemas.Field (option A)) : bool :=
  match f with
  | Schemas.Given None => true
  | _ => false
  end.

(** No explicit null on a column declared [nullable=False]. *)
Definition no_required_null (payload : Schemas.TodoUpdate.t) : bool :=
  negb (is_null (Schemas.TodoUpdate.todo_name payload))
  && negb (is_null (Schemas.TodoUpdate.todo_description payload))
  && negb (is_null (Schemas.TodoUpdate.priority payload))
  && negb (is_null (Schemas.TodoUpdate.status payload)).

(** The row of id [todo_id] written at [updated_at], the others as they
    are. *)
Definition touch (todo_id updated_at : Z) (t : TodoModel.t) : TodoModel.t :=
  if TodoModel.todo_id t =? todo_id then touched updated_at t else t.

(** The field names of an exported JSON object. *)
Definition keys (object : list (string * Main.Json)) : list string :=
  map fst object.

Fixpoint lookup (key : string) (object : list (string * Main.Json))
  : option Main.Json :=
  match object with
  | [] => None
  | (k, v) :: rest => if String.eqb k key then Some v else lookup key rest
  end.

(** SQLite: no escape character in LIKE, [lower()] on the ASCII letters,
    NULL before everything. *)
Definition sqlite : Engine :=
  {| like_backslash_escape := false;
     lower_char := Sql.lower_ascii;
     nulls_sort_first := true |}.

(** PostgreSQL under a Latin-1 locale: the backslash escapes in LIKE,
    case folding reaches the accented letters, NULL after everything. *)
Definition postgresql : Engine :=
  {| like_backslash_escape := true;
     lower_char := Sql.lower_latin1;
     nulls_sort_first := false |}.

End Spec.

(** ** Further vocabulary: what a request leaves behind *)

Module Derived.

(** The constraints [TodoOut] puts on a row it serializes. *)
Definition row_valid (t : TodoModel.t) : bool :=
  Schemas.length_between 3 512 (TodoModel.todo_name t)
  && Schemas.length_between 1 2000 (TodoModel.todo_description t)
  && Schemas.is_Priority (TodoModel.priority t)
  && Schemas.literal Schemas.TodoStatus (TodoModel.status t).

(** A route without the API-key dependency. *)
Definition is_read (req : Main.Request) : bool :=
  match Spec.credential req with
  | Some _ => false
  | None => true
  end.


(** What identifies a row for good: its id and its creation time. *)
Definition identity (t : TodoModel.t) : Z * Z :=
  (TodoModel.todo_id t, TodoModel.created_at t).

(** The row a response carries, if it carries one. *)
Definition todo_of (r : Main.Response) : option TodoModel.t :=
  match Main.content r with
  | Main.Todo t => Some t
  | _ => None
  end.

(** The rows a listing response carries. *)
Definition todos_of (r : Main.Response) : list TodoModel.t :=
  match Main.content r with
  | Main.Todos l => l
  | _ => []
  end.

(** How many records an export response carries. *)
Definition exported (c : Main.Content) : Z :=
  match c with
  | Main.ExportJson objects => Z.of_nat (List.length objects)
  | Main.ExportCsv rows => Z.of_nat (List.length (tl rows))
  | _ => 0
  end.

(** Whether the table holds a row that is not soft deleted. *)
Definition has_live (db : Main.DB) : bool := existsb Spec.not_deleted db.

Definition not_found : Exn := HTTPException 404 "Todo not found".

(** The two of a row's columns a soft delete writes set to [is_deleted]
    and [updated_at]. *)
Definition marked (is_deleted : bool) (updated_at : Z) (t : TodoModel.t)
  : TodoModel.t :=
  {| TodoModel.todo_id := TodoModel.todo_id t;
     TodoModel.todo_name := TodoModel.todo_name t;
     TodoModel.todo_description := TodoModel.todo_description t;
     TodoModel.priority := TodoModel.priority t;
     TodoModel.status := TodoModel.status t;
     TodoModel.due_date := TodoModel.due_date t;
     TodoModel.is_deleted := is_deleted;
     TodoModel.created_at := TodoModel.created_at t;
     TodoModel.updated_at := updated_at |}.

(** The cell [export_todos] writes for a JSON value: null as the empty
    string, a datetime through [isoformat()]. *)
Definition cell_of_json (v : Main.Json) : Main.Cell :=
  match v with
  | Main.JNull => Main.CStr ""
  | Main.JInt n => Main.CInt n
  | Main.JStr s => Main.CStr s
  | Main.JBool b => Main.CBool b
  | Main.JDatetime t => Main.CIsoformat t
  end.

Definition with_status (status : option string) (query : Main.ListQuery.t)
  : Main.ListQuery.t :=
  {| Main.ListQuery.limit := Main.ListQuery.limit query;
     Main.ListQuery.offset := Main.ListQuery.offset query;
     Main.ListQuery.priority := Main.ListQuery.priority query;
     Main.ListQuery.status := status;
     Main.ListQuery.q := Main.ListQuery.q query;
     Main.ListQuery.overdue := Main.ListQuery.overdue query;
     Main.ListQuery.sort_by := Main.ListQuery.sort_by query;
     Main.ListQuery.order := Main.ListQuery.order query;
     Main.ListQuery.include_deleted :=
       Main.ListQuery.include_deleted query |}.

(** An answer to a query over [rows] ordered by [todo_id]: the same rows,
    each id against the next, in whatever way the engine got there. *)
Definition ordered_by_id (desc : bool) (rows answer : list TodoModel.t)
  : Prop :=
  Permutation answer rows
  /\ Sorted
       (fun a b =>
          if desc then TodoModel.todo_id b <= TodoModel.todo_id a
          else TodoModel.todo_id a <= TodoModel.todo_id b)
       answer.

(** A query that gives [limit] and [offset] and nothing else. *)
Definition page (limit offset : Z) : Main.ListQuery.t :=
  {| Main.ListQuery.limit := Some limit;
     Main.ListQuery.offset := Some offset;
     Main.ListQuery.priority := None;
     Main.ListQuery.status := None;
     Main.ListQuery.q := None;
     Main.ListQuery.overdue := None;
     Main.ListQuery.sort_by := None;
     Main.ListQuery.order := None;
     Main.ListQuery.include_deleted := None |}.

End Derived.

(** * Properties *)

(** ** The model on concrete inputs *)

Example like_wildcards :
  Sql.like false "%a_c%" "xxabcxx" = true
  /\ Sql.like false "a_c" "ac" = false
  /\ Sql.like true "50\%" "50%" = true
  /\ Sql.like false "50\%" "50%" = false
  /\ Sql.ilike Spec.sqlite "Clean house" "%HOUSE%" = true.
Proof. repeat split. Qed.

(** Beyond ASCII the engines part ways: E-acute (201) against e-acute
    (233), which one engine folds and the other does not. *)
Example folding_by_engine :
  Sql.ilike Spec.postgresql (String (ascii_of_N 233) "") (String (ascii_of_N 201) "")
  = true
  /\ Sql.ilike Spec.sqlite (String (ascii_of_N 233) "") (String (ascii_of_N 201) "")
     = false
  /\ Sql.ilike Spec.postgresql "cafe" "%CAF%" = true
  /\ Sql.ilike Spec.sqlite "cafe" "%CAF%" = true.
Proof. repeat split. Qed.

Example nulls_by_engine :
  map TodoModel.due_date
    (Sql.order_by Spec.sqlite (fun t => TodoModel.nullable (TodoModel.due_date t))
       false (Main.seed_data [] 100 101))
  = [None; None; None; None; Some 100]
  /\ map TodoModel.due_date
       (Sql.order_by Spec.postgresql
          (fun t => TodoModel.nullable (TodoModel.due_date t))
          false (Main.seed_data [] 100 101))
     = [Some 100; None; None; None; None].
Proof. split; reflexivity. Qed.

Example seeded_once :
  map TodoModel.todo_id (Main.seed_data [] 100 101) = [1; 2; 3; 4; 5]
  /\ Main.seed_data (Main.seed_data [] 100 101) 200 201
     = Main.seed_data [] 100 101.
Proof. split; reflexivity. Qed.

Example empty_patch_writes_nothing :
  Main.update_todo [Spec.row 1 "task" false] 100 1 Spec.nothing_given
  = Return ([Spec.row 1 "task" false], Spec.row 1 "task" false).
Proof. reflexivity. Qed.

(** Create, read, set the status, delete, read, restore, read. *)
Example lifecycle :
  let key := Some "name_here"%string in
  let run db now req := Main.handle "name_here" Spec.sqlite db now req in
  let db0 := Main.seed_data [] 100 101 in
  let created :=
    {| TodoModel.todo_id := 6;
       TodoModel.todo_name := "Buy milk";
       TodoModel.todo_description := "2%";
       TodoModel.priority := 2;
       TodoModel.status := "NEW";
       TodoModel.due_date := None;
       TodoModel.is_deleted := false;
       TodoModel.created_at := 200;
       TodoModel.updated_at := 200 |} in
  let done :=
    {| TodoModel.todo_id := 6;
       TodoModel.todo_name := "Buy milk";
       TodoModel.todo_description := "2%";
       TodoModel.priority := 2;
       TodoModel.status := "DONE";
       TodoModel.due_date := None;
       TodoModel.is_deleted := false;
       TodoModel.created_at := 200;
       TodoModel.updated_at := 300 |} in
  let db1 := fst (run db0 200 (Main.POST_todos key Spec.buy_milk)) in
  let db2 :=
    fst (run db1 300
           (Main.PATCH_todo_status key 6
              {| Schemas.TodoStatusUpdate.status := "DONE" |})) in
  let db3 := fst (run db2 400 (Main.DELETE_todo key 6)) in
  let db4 := fst (run db3 500 (Main.POST_todo_restore key 6)) in
  snd (run db0 200 (Main.POST_todos key Spec.buy_milk))
  = {| Main.status_code := 201; Main.content := Main.Todo created |}
  /\ snd (run db1 250 (Main.GET_todo 6))
     = {| Main.status_code := 200; Main.content := Main.Todo created |}
  /\ snd (run db1 300
            (Main.PATCH_todo_status key 6
               {| Schemas.TodoStatusUpdate.status := "DONE" |}))
     = {| Main.status_code := 200; Main.content := Main.Todo done |}
  /\ snd (run db2 400 (Main.DELETE_todo key 6))
     = {| Main.status_code := 204; Main.content := Main.NoContent |}
  /\ Main.status_code (snd (run db3 450 (Main.GET_todo 6))) = 404
  /\ snd (run db3 500 (Main.POST_todo_restore key 6))
     = {| Main.status_code := 200;
          Main.content := Main.Todo (Spec.touched 500 done) |}
  /\ snd (run db4 550 (Main.GET_todo 6))
     = {| Main.status_code := 200;
          Main.content := Main.Todo (Spec.touched 500 done) |}.
Proof. repeat split. Qed.

(** ** The query interface *)

Section QueryFacts.
Context {Row : Type}.
Variable leb : Row -> Row -> bool.
Hypothesis leb_total : forall x y, leb x y = false -> leb y x = true.

Lemma insert_by_perm x l : Permutation (Sql.insert_by leb x l) (x :: l).
Proof.
  induction l as [|y l IH]; simpl; [reflexivity|].
  destruct (leb x y); [reflexivity|].
  rewrite IH. apply perm_swap.
Qed.

Lemma insertion_perm l : Permutation (fold_right (Sql.insert_by leb) [] l) l.
Proof.
  induction l as [|x l IH]; simpl; [constructor|].
  rewrite insert_by_perm. now constructor.
Qed.

Lemma insert_by_hd x l y :
  HdRel (fun a b => leb a b = true) y l -> leb y x = true ->
  HdRel (fun a b => leb a b = true) y (Sql.insert_by leb x l).
Proof.
  intros Hl Hyx. destruct l as [|z l]; simpl.
  - now constructor.
  - destruct (leb x z); constructor; auto. now inversion Hl.
Qed.

Lemma insert_by_sorted x l :
  Sorted (fun a b => leb a b = true) l ->
  Sorted (fun a b => leb a b = true) (Sql.insert_by leb x l).
Proof.
  induction 1 as [|y l Hs IH Hd]; simpl.
  - repeat constructor.
  - destruct (leb x y) eqn:E.
    + constructor; [now constructor | now constructor].
    + constructor; [exact IH|]. apply insert_by_hd; auto.
Qed.

Lemma insertion_sorted l :
  Sorted (fun a b => leb a b = true) (fold_right (Sql.insert_by leb) [] l).
Proof.
  induction l; simpl; [constructor | now apply insert_by_sorted].
Qed.
End QueryFacts.

Section WindowFacts.
Context {A : Type}.
Variable R : A -> A -> Prop.





Lemma in_window limit offset (l : list A) x :
  In x (Spec.window limit offset l) -> In x l.
Proof.
  unfold Spec.window. intro H.
  rewrite <- (firstn_skipn (Z.to_nat offset) l). apply in_or_app. right.
  rewrite <- (firstn_skipn (Z.to_nat limit) (skipn (Z.to_nat offset) l)).
  apply in_or_app. now left.
Qed.
End WindowFacts.

Lemma value_leb_total engine a b :
  Sql.value_leb engine a b = false -> Sql.value_leb engine b a = true.
Proof.
  destruct a as [|x|x|x|x], b as [|y|y|y|y]; simpl; try discriminate;
    try (destruct (nulls_sort_first engine); simpl; congruence);
    try (cbv; congruence).
  - intro H. apply Z.leb_gt in H. apply Z.leb_le. lia.
  - intro H. destruct (String.leb_total x y); congruence.
  - destruct x, y; simpl; congruence.
  - intro H. apply Z.leb_gt in H. apply Z.leb_le. lia.
Qed.

Lemma order_by_perm {Row} engine (col : Row -> Sql.Value) desc l :
  Permutation (Sql.order_by engine col desc l) l.
Proof. apply insertion_perm. Qed.

Lemma order_by_in {Row} engine (col : Row -> Sql.Value) desc l x :
  In x (Sql.order_by engine col desc l) <-> In x l.
Proof.
  split; apply Permutation_in;
    [apply order_by_perm | apply Permutation_sym, order_by_perm].
Qed.

Lemma sorted_weaken {A} (R R' : A -> A -> Prop) l :
  (forall a b, R a b -> R' a b) -> Sorted R l -> Sorted R' l.
Proof.
  intros HR. induction 1 as [|x l Hs IH Hd]; constructor; [exact IH|].
  destruct Hd; constructor. now apply HR.
Qed.

(** [String.leb] is the byte order. *)
Lemma string_leb_lex a b : String.leb a b = true -> Spec.lex_le a b.
Proof.
  unfold String.leb. revert b.
  induction a as [|x a IH]; intros b; destruct b as [|y b]; simpl; auto.
  - discriminate.
  - unfold Ascii.compare. destruct (N.compare_spec (N_of_ascii x) (N_of_ascii y))
      as [E | L | G].
    + intro H. right. split; [|now apply IH].
      rewrite <- (ascii_N_embedding x), <- (ascii_N_embedding y).
      now rewrite E.
    + intros _. now left.
    + discriminate.
Qed.

(** [value_leb], the comparison [order_by] sorts with, decides the order
    of the column values. *)
Lemma value_leb_le engine a b :
  Sql.value_leb engine a b = true -> Spec.value_le engine a b.
Proof.
  destruct a as [|x|x|x|x], b as [|y|y|y|y]; simpl; auto;
    try (intro H; now apply negb_true_iff in H);
    try (intro H; now apply Z.leb_le in H).
  - apply string_leb_lex.
  - destruct x, y; simpl; congruence.
Qed.

Lemma order_by_monotonic engine col desc l :
  Spec.monotonic engine col desc (Sql.order_by engine col desc l).
Proof.
  unfold Spec.monotonic, Sql.order_by.
  destruct desc.
  - eapply sorted_weaken;
      [|apply (insertion_sorted
                 (fun x y => Sql.value_leb engine (col y) (col x)));
        intros x y; apply value_leb_total].
    intros a b. apply value_leb_le.
  - eapply sorted_weaken;
      [|apply (insertion_sorted
                 (fun x y => Sql.value_leb engine (col x) (col y)));
        intros x y; apply value_leb_total].
    intros a b. apply value_leb_le.
Qed.

(** ** The filters of a listing *)

Lemma eqb_false_negb b : Bool.eqb b false = negb b.
Proof. now destruct b. Qed.

Lemma live_filter (db : Main.DB) :
  filter (fun t => Bool.eqb (TodoModel.is_deleted t) false) db
  = filter Spec.not_deleted db.
Proof. apply filter_ext. intro t. apply eqb_false_negb. Qed.

Lemma in_filter_if {A} (b : bool) (p : A -> bool) l x :
  In x (if b then filter p l else l) <-> In x l /\ (b = true -> p x = true).
Proof.
  destruct b; [rewrite filter_In|]; intuition congruence.
Qed.

Lemma in_filter_opt {A B} (o : option B) (p : B -> A -> bool) l x :
  In x (match o with Some v => filter (p v) l | None => l end)
  <-> In x l /\ (forall v, o = Some v -> p v x = true).
Proof.
  destruct o as [v|]; [rewrite filter_In|].
  - split; [intros [H1 H2]; split; auto; intros ? [= <-]; auto|].
    intros [H1 H2]; auto.
  - split; [intro; split; auto; discriminate | tauto].
Qed.

(** What a row passes to be kept by [list_filters], read off the code. *)
Lemma list_filters_in engine db now priority status q overdue include_deleted t :
  In t (Main.list_filters engine db now priority status q overdue
          include_deleted)
  <-> In t db
      /\ (include_deleted = false -> TodoModel.is_deleted t = false)
      /\ (forall p, priority = Some p -> TodoModel.priority t = p)
      /\ (forall s, status = Some s -> TodoModel.status t = s)
      /\ (forall s, q = Some s -> s <> EmptyString ->
            Sql.ilike engine (TodoModel.todo_name t) ("%" ++ s ++ "%")
            || Sql.ilike engine (TodoModel.todo_description t)
                 ("%" ++ s ++ "%") = true)
      /\ (overdue = true ->
            exists d, TodoModel.due_date t = Some d /\ d < now).
Proof.
  unfold Main.list_filters; cbv zeta.
  assert (Hov : forall l,
             In t (if overdue
                   then filter
                          (fun t => Sql.lt_nullable (TodoModel.due_date t) now)
                          (filter
                             (fun t => Sql.isnot_None (TodoModel.due_date t))
                             l)
                   else l)
             <-> In t l
                 /\ (overdue = true ->
                     exists d, TodoModel.due_date t = Some d /\ d < now)).
  { intro l. destruct overdue.
    - rewrite !filter_In. unfold Sql.lt_nullable, Sql.isnot_None.
      destruct (TodoModel.due_date t) as [d|].
      + rewrite Z.ltb_lt. split.
        * intros [[? _] ?]; split; auto. intros _; exists d; auto.
        * intros [? H]. destruct (H eq_refl) as (d' & [= <-] & ?). auto.
      + split; [intros [_ ?]; discriminate|].
        intros [_ H]. destruct (H eq_refl) as (? & ? & _). discriminate.
    - split; [intro; split; auto; discriminate | tauto]. }
  rewrite Hov. clear Hov.
  assert (Hq : forall l,
             In t (match q with
                   | Some (String _ _ as q) =>
                       filter
                         (fun t =>
                            Sql.ilike engine (TodoModel.todo_name t)
                              ("%" ++ q ++ "%")
                            || Sql.ilike engine (TodoModel.todo_description t)
                                 ("%" ++ q ++ "%")) l
                   | _ => l
                   end)
             <-> In t l
                 /\ (forall s, q = Some s -> s <> EmptyString ->
                       Sql.ilike engine (TodoModel.todo_name t)
                         ("%" ++ s ++ "%")
                       || Sql.ilike engine (TodoModel.todo_description t)
                            ("%" ++ s ++ "%") = true)).
  { intro l. destruct q as [[|c s]|].
    - split; [intro; split; auto; intros ? [= <-]; congruence | tauto].
    - rewrite filter_In. split.
      + intros [? ?]; split; auto. intros ? [= <-] _. assumption.
      + intros [? H]; split; auto. apply H; [reflexivity | discriminate].
    - split; [intro; split; auto; discriminate | tauto]. }
  rewrite Hq. clear Hq.
  rewrite (in_filter_opt status
             (fun s t => String.eqb (TodoModel.status t) s)).
  rewrite (in_filter_opt priority (fun p t => TodoModel.priority t =? p)).
  rewrite in_filter_if.
  assert (Hd : (negb include_deleted = true ->
                Bool.eqb (TodoModel.is_deleted t) false = true)
               <-> (include_deleted = false -> TodoModel.is_deleted t = false)).
  { destruct include_deleted, (TodoModel.is_deleted t); simpl;
      intuition congruence. }
  assert (Hp : (forall v, priority = Some v -> (TodoModel.priority t =? v) = true)
               <-> (forall p, priority = Some p -> TodoModel.priority t = p)).
  { split; intros H p Hp; apply Z.eqb_eq; auto. }
  assert (Hs : (forall v, status = Some v ->
                  String.eqb (TodoModel.status t) v = true)
               <-> (forall s, status = Some s -> TodoModel.status t = s)).
  { split; intros H s Hs; apply String.eqb_eq; auto. }
  rewrite Hd, Hp, Hs. tauto.
Qed.

Lemma list_todos_window engine db now limit offset priority status q overdue
    sort_by order include_deleted :
  Main.list_todos engine db now limit offset priority status q overdue sort_by
    order include_deleted
  = (query <- Main.list_query engine db now priority status q overdue sort_by
                order include_deleted ;;
     Return (Spec.window limit offset query)).
Proof. reflexivity. Qed.

Lemma returned_in_filters engine db now limit offset priority status q overdue
    sort_by order include_deleted t :
  In t (Spec.returned
          (Main.list_todos engine db now limit offset priority status q overdue
             sort_by order include_deleted)) ->
  In t (Main.list_filters engine db now priority status q overdue
          include_deleted).
Proof.
  unfold Main.list_todos, Main.list_query.
  destruct (TodoModel.getattr sort_by) as [col|]; simpl; [|tauto].
  intro H. apply in_window in H. now apply order_by_in in H.
Qed.

Lemma export_rows_in engine db include_deleted t :
  In t (Main.export_rows engine db include_deleted)
  <-> In t db /\ (include_deleted = false -> TodoModel.is_deleted t = false).
Proof.
  unfold Main.export_rows, Sql.all. rewrite order_by_in, in_filter_if.
  destruct include_deleted, (TodoModel.is_deleted t); simpl;
    intuition congruence.
Qed.

Lemma route_excludes_soft_deleted engine db now query include_deleted :
  Main.default false include_deleted = false ->
  Forall (fun t => TodoModel.is_deleted t = false)
    (Spec.returned
       (Main.list_todos_route engine db now
          (Spec.with_include_deleted include_deleted query))).
Proof.
  intro Hdefault. unfold Main.list_todos_route.
  destruct (Main.validated _); cbn [bind Spec.returned]; [|constructor].
  cbn [Main.ListQuery.include_deleted Spec.with_include_deleted].
  rewrite Hdefault.
  apply Forall_forall. intros t H.
  apply returned_in_filters, list_filters_in in H.
  now apply H.
Qed.

(** C1.  With [include_deleted=false], given or left to its default, no
    row a listing returns is soft deleted, whatever the table and the
    other parameters; with [include_deleted=true] a soft-deleted row can
    be returned.  The export, in both formats, and the statistics leave
    the soft-deleted rows out in the same way: every exported record
    carries [is_deleted] false, and the counts are those of the table
    without its soft-deleted rows. *)
Theorem soft_deleted_excluded
    engine db now limit offset priority status q overdue sort_by order format
    query :
  Forall (fun t => TodoModel.is_deleted t = false)
    (Spec.returned
       (Main.list_todos engine db now limit offset priority status q overdue
          sort_by order false))
  /\ Forall (fun t => TodoModel.is_deleted t = false)
       (Spec.returned
          (Main.list_todos_route engine db now
             (Spec.with_include_deleted None query)))
  /\ Forall (fun t => TodoModel.is_deleted t = false)
       (Spec.returned
          (Main.list_todos_route engine db now
             (Spec.with_include_deleted (Some false) query)))
  /\ (exists db' t,
        In t (Spec.returned
                (Main.list_todos engine db' now 10 0 None None None false
                   "todo_id" "asc" true))
        /\ TodoModel.is_deleted t = true)
  /\ match Main.export_todos engine db format false with
     | Main.ExportJson objects =>
         Forall (fun o => In ("is_deleted"%string, Main.JBool false) o) objects
     | Main.ExportCsv rows =>
         Forall (fun r => nth_error r 6 = Some (Main.CBool false)) (tl rows)
     | _ => False
     end
  /\ Main.todos_stats db false
     = Main.todos_stats (filter Spec.not_deleted db) true.
Proof.
  split; [|split; [|split; [|split; [|split]]]].
  - apply Forall_forall. intros t H.
    apply returned_in_filters, list_filters_in in H.
    now apply H.
  - now apply route_excludes_soft_deleted.
  - now apply route_excludes_soft_deleted.
  - exists [Spec.row 1 "task" true], (Spec.row 1 "task" true).
    split; [left; reflexivity | reflexivity].
  - unfold Main.export_todos.
    destruct (String.eqb format "json"); apply Forall_forall; simpl;
      intros x Hx; apply in_map_iff in Hx; destruct Hx as (t & <- & Ht);
      apply export_rows_in in Ht; destruct Ht as [_ Ht];
      simpl; rewrite (Ht eq_refl); auto 10.
  - unfold Main.todos_stats. simpl. now rewrite live_filter.
Qed.

Lemma literal_in members v :
  Schemas.literal members v = true <-> In v members.
Proof.
  unfold Schemas.literal. rewrite existsb_exists. split.
  - intros (x & Hx & E). apply String.eqb_eq in E. now subst.
  - intro H. exists v. split; [exact H | apply String.eqb_refl].
Qed.

(** Every member of [SortBy] names a column of [TodoModel]. *)
Lemma sort_column_exists sort_by :
  Schemas.literal Schemas.SortBy sort_by = true ->
  exists sort_col, TodoModel.getattr sort_by = Some sort_col.
Proof.
  intro H. apply literal_in in H. simpl in H.
  repeat (destruct H as [<-|H]; [eexists; reflexivity|]).
  contradiction.
Qed.



(** ** What the routes keep true of the table *)

Lemma get_or_404_in db todo_id include_deleted todo :
  Main.get_or_404 db todo_id include_deleted = Return todo ->
  In todo db
  /\ TodoModel.todo_id todo = todo_id
  /\ (include_deleted = false -> TodoModel.is_deleted todo = false).
Proof.
  unfold Main.get_or_404, Sql.first.
  set (found := if negb include_deleted then _ else _).
  destruct found as [|t rest] eqn:E; simpl; [discriminate|].
  intros [= <-].
  assert (H : In t found) by (rewrite E; now left).
  subst found. apply in_filter_if in H. destruct H as [H Hdel].
  apply filter_In in H. destruct H as [H Hid]. apply Z.eqb_eq in Hid.
  repeat split; auto.
  intros ->. specialize (Hdel eq_refl).
  now destruct (TodoModel.is_deleted t).
Qed.

Section Invariant.
Variable P : TodoModel.t -> Prop.

Lemma add_keeps db now name description priority status due_date :
  Forall P db ->
  P (snd (Main.Session.add db now name description priority status due_date)) ->
  Forall P
    (fst (Main.Session.add db now name description priority status due_date)).
Proof.
  intros Hdb Hrow. simpl. apply Forall_app. split; [exact Hdb|].
  now constructor.
Qed.

Lemma commit_keeps db now todo db' row :
  Forall P db ->
  (forall r, TodoModel.flush now todo = Return r -> P r) ->
  Main.Session.commit db now todo = Return (db', row) ->
  Forall P db'.
Proof.
  unfold Main.Session.commit. intros Hdb Hrow.
  destruct (TodoModel.flush now todo) as [r|e]; simpl; [|discriminate].
  intros [= <- <-]. apply Forall_forall. intros x Hx.
  apply in_map_iff in Hx. destruct Hx as (y & <- & Hy).
  destruct (TodoModel.todo_id y =? TodoModel.todo_id r); auto.
  eapply Forall_forall in Hdb; eauto.
Qed.
End Invariant.

Lemma flush_priority now todo r :
  TodoModel.flush now todo = Return r ->
  TodoModel.attr_priority todo = Some (TodoModel.priority r).
Proof.
  unfold TodoModel.flush.
  destruct (TodoModel.attr_todo_name todo), (TodoModel.attr_todo_description todo),
    (TodoModel.attr_priority todo), (TodoModel.attr_status todo);
    try discriminate.
  now intros [= <-].
Qed.

Lemma valid_priority payload :
  Schemas.TodoBase.valid payload = true ->
  Schemas.is_Priority (Schemas.TodoBase.priority payload) = true.
Proof.
  unfold Schemas.TodoBase.valid. intro H.
  apply andb_prop in H. destruct H as [H _].
  apply andb_prop in H. now destruct H as [_ H].
Qed.

Lemma seed_data_priorities db now db_now :
  Spec.priorities_valid db -> Spec.priorities_valid (Main.seed_data db now db_now).
Proof.
  unfold Main.seed_data, Spec.priorities_valid. intro H.
  destruct (Sql.first _); [exact H|].
  repeat (apply add_keeps; [|reflexivity]). exact H.
Qed.

Lemma validated_true ok : Main.validated ok = Return tt -> ok = true.
Proof. unfold Main.validated. now destruct ok. Qed.

Lemma bind_return {A B} (m : Raises A) (k : A -> Raises B) b :
  bind m k = Return b -> exists a, m = Return a /\ k a = Return b.
Proof. destruct m as [a|e]; simpl; [eauto | discriminate]. Qed.

Lemma writes_keeps {A} (P : Main.DB -> Prop) db status_code
    (render : A -> Main.Content) r :
  P db ->
  (forall db' a, r = Return (db', a) -> P db') ->
  P (fst (Main.writes db status_code render r)).
Proof.
  intros Hdb Hr. unfold Main.writes. destruct r as [[db' a]|e]; simpl; eauto.
Qed.

Lemma reads_keeps db r : fst (Main.reads db r) = db.
Proof. unfold Main.reads. now destruct r. Qed.

(** Splits a write route that returned into its gate, its validation and
    its handler. *)
Ltac route_returned H :=
  apply bind_return in H; destruct H as ([] & _ & H);
  apply bind_return in H;
  let V := fresh "Hvalid" in
  destruct H as ([] & V & H); apply validated_true in V.

(** Splits a handler that returned into its lookup and its commit. *)
Ltac handler_returned H todo Hin :=
  apply bind_return in H; destruct H as (todo & Hin & H);
  apply get_or_404_in in Hin.

Lemma handle_priorities API_KEY engine db now req :
  Spec.priorities_valid db ->
  Spec.priorities_valid (fst (Main.handle API_KEY engine db now req)).
Proof.
  unfold Spec.priorities_valid. intro Hdb.
  destruct req as [ | query | format incl | incl | i | key todo | key i payload
                   | key i payload | key i payload | key i | key i ];
    simpl Main.handle; rewrite ?reads_keeps; try exact Hdb;
    apply writes_keeps; try exact Hdb; intros db' a H; route_returned H.
  - injection H as <- <-.
    apply Forall_app. split; [exact Hdb|].
    constructor; [|constructor]. simpl. now apply valid_priority.
  - apply andb_prop in Hvalid. destruct Hvalid as [_ Hvalid].
    handler_returned H todo Hin.
    eapply commit_keeps; [exact Hdb| |exact H].
    intros r' Hr'. apply flush_priority in Hr'. simpl in Hr'.
    injection Hr' as <-. now apply valid_priority.
  - apply andb_prop in Hvalid. destruct Hvalid as [_ Hvalid].
    handler_returned H todo Hin. destruct Hin as (Hin & _ & _).
    pose proof (proj1 (Forall_forall _ _) Hdb _ Hin) as Htodo.
    unfold Schemas.TodoUpdate.valid in Hvalid.
    apply andb_prop in Hvalid. destruct Hvalid as [Hvalid _].
    apply andb_prop in Hvalid. destruct Hvalid as [_ Hprio].
    apply bind_return in H. destruct H as (todo' & Hp & H).
    eapply commit_keeps; [exact Hdb| |exact H].
    intros r' Hr'. apply flush_priority in Hr'.
    destruct (Schemas.TodoUpdate.priority payload) as [|[p|]];
      try discriminate; injection Hp as <-;
      destruct (Schemas.TodoUpdate.todo_name payload),
        (Schemas.TodoUpdate.todo_description payload),
        (Schemas.TodoUpdate.status payload),
        (Schemas.TodoUpdate.due_date payload);
      simpl in Hr'; injection Hr' as <-; assumption.
  - handler_returned H todo Hin. destruct Hin as (Hin & _ & _).
    pose proof (proj1 (Forall_forall _ _) Hdb _ Hin) as Htodo.
    eapply commit_keeps; [exact Hdb| |exact H].
    intros r' Hr'. apply flush_priority in Hr'. simpl in Hr'.
    injection Hr' as <-. assumption.
  - handler_returned H todo Hin. destruct Hin as (Hin & _ & _).
    pose proof (proj1 (Forall_forall _ _) Hdb _ Hin) as Htodo.
    eapply commit_keeps; [exact Hdb| |exact H].
    intros r' Hr'. apply flush_priority in Hr'. simpl in Hr'.
    injection Hr' as <-. assumption.
  - handler_returned H todo Hin. destruct Hin as (Hin & _ & _).
    pose proof (proj1 (Forall_forall _ _) Hdb _ Hin) as Htodo.
    apply bind_return in H. destruct H as ([db'' r] & H & Hret).
    injection Hret as <- <-.
    eapply commit_keeps; [exact Hdb| |exact H].
    intros r' Hr'. apply flush_priority in Hr'. simpl in Hr'.
    injection Hr' as <-. assumption.
Qed.

Lemma reachable_priorities API_KEY engine db :
  Main.reachable API_KEY engine db -> Spec.priorities_valid db.
Proof.
  induction 1.
  - constructor.
  - now apply seed_data_priorities.
  - now apply handle_priorities.
Qed.

(** ** Statistics *)

Lemma is_Priority_cases v :
  Schemas.is_Priority v = true ->
  v = Schemas.int Schemas.HIGH \/ v = Schemas.int Schemas.MEDIUM
  \/ v = Schemas.int Schemas.LOW.
Proof.
  unfold Schemas.is_Priority. simpl. rewrite !orb_true_iff, !Z.eqb_eq.
  intuition discriminate.
Qed.

Lemma priority_partition l :
  Spec.priorities_valid l ->
  Z.of_nat (List.length l)
  = Spec.with_priority Schemas.HIGH l + Spec.with_priority Schemas.MEDIUM l
    + Spec.with_priority Schemas.LOW l.
Proof.
  unfold Spec.with_priority.
  induction 1 as [|t l Ht Hl IH]; [reflexivity|].
  cbn [filter List.length]. rewrite Nat2Z.inj_succ, IH.
  destruct (is_Priority_cases _ Ht) as [-> | [-> | ->]];
    cbn [Schemas.int Z.eqb Pos.eqb List.length];
    rewrite ?Nat2Z.inj_succ; lia.
Qed.

Lemma counted_priorities db include_deleted :
  Spec.priorities_valid db ->
  Spec.priorities_valid (Spec.counted db include_deleted).
Proof.
  unfold Spec.priorities_valid, Spec.counted. intro H.
  destruct include_deleted; [exact H|].
  apply Forall_forall. intros t Ht. apply filter_In in Ht.
  eapply Forall_forall in H; [exact H | tauto].
Qed.

Lemma todos_stats_counted db include_deleted :
  Main.todos_stats db include_deleted
  = {| Schemas.TodoStats.total :=
         Z.of_nat (List.length (Spec.counted db include_deleted));
       Schemas.TodoStats.high :=
         Spec.with_priority Schemas.HIGH (Spec.counted db include_deleted);
       Schemas.TodoStats.medium :=
         Spec.with_priority Schemas.MEDIUM (Spec.counted db include_deleted);
       Schemas.TodoStats.low :=
         Spec.with_priority Schemas.LOW (Spec.counted db include_deleted) |}.
Proof.
  unfold Main.todos_stats, Spec.counted, Spec.with_priority, Sql.count.
  destruct include_deleted; simpl; [reflexivity|].
  now rewrite live_filter.
Qed.

(** C9.  On every table the service can reach, and for either value of
    [include_deleted], the statistics satisfy total = high + medium + low;
    total is the size of the filtered set and each of high, medium and low
    the number of its rows at that priority. *)
Theorem stats_consistent API_KEY engine db include_deleted :
  Main.reachable API_KEY engine db ->
  let stats := Main.todos_stats db include_deleted in
  let counted := Spec.counted db include_deleted in
  Schemas.TodoStats.total stats
  = Schemas.TodoStats.high stats + Schemas.TodoStats.medium stats
    + Schemas.TodoStats.low stats
  /\ Schemas.TodoStats.total stats = Z.of_nat (List.length counted)
  /\ Schemas.TodoStats.high stats = Spec.with_priority Schemas.HIGH counted
  /\ Schemas.TodoStats.medium stats = Spec.with_priority Schemas.MEDIUM counted
  /\ Schemas.TodoStats.low stats = Spec.with_priority Schemas.LOW counted.
Proof.
  intros Hreach stats counted. subst stats counted.
  rewrite todos_stats_counted. simpl.
  split; [|repeat split].
  apply priority_partition, counted_priorities.
  eapply reachable_priorities; eauto.
Qed.

Lemma stats_consistent_witness :
  Main.todos_stats (Main.seed_data [] 100 101) false
  = {| Schemas.TodoStats.total := 5;
       Schemas.TodoStats.high := 1;
       Schemas.TodoStats.medium := 2;
       Schemas.TodoStats.low := 2 |}
  /\ Schemas.TodoStats.total (Main.todos_stats (Main.seed_data [] 100 101) false)
     = Schemas.TodoStats.high (Main.todos_stats (Main.seed_data [] 100 101) false)
       + Schemas.TodoStats.medium
           (Main.todos_stats (Main.seed_data [] 100 101) false)
       + Schemas.TodoStats.low
           (Main.todos_stats (Main.seed_data [] 100 101) false).
Proof.
  split; [reflexivity|].
  apply (stats_consistent "name_here" Spec.sqlite
           (Main.seed_data [] 100 101) false).
  apply Main.reachable_startup, Main.reachable_empty.
Defined.

(** ** The API-key gate and the path id *)


Lemma gate_open API_KEY key :
  String.eqb (Main.x_api_key_header key) API_KEY = true ->
  Main.require_api_key API_KEY (Main.x_api_key_header key) = Return tt.
Proof. intro H. unfold Main.require_api_key. now rewrite H. Qed.







(** ** Validation of [sort_by] *)

Lemma list_todos_returns engine db now limit offset priority status q overdue
    sort_by order include_deleted :
  Schemas.literal Schemas.SortBy sort_by = true ->
  exists todos,
    Main.list_todos engine db now limit offset priority status q overdue
      sort_by order include_deleted = Return todos.
Proof.
  intro H. destruct (sort_column_exists _ H) as [col Hcol].
  unfold Main.list_todos, Main.list_query. rewrite Hcol. simpl. eauto.
Qed.

(** The other parameters of a listing query, [sort_by] aside. *)
Lemma list_todos_route_sort_by engine db now query sort_by :
  Main.list_todos_route engine db now (Spec.with_sort_by sort_by query)
  = (_ <- Main.validated
            ((1 <=? Main.default 10 (Main.ListQuery.limit query))
             && (Main.default 10 (Main.ListQuery.limit query) <=? 100)
             && (0 <=? Main.default 0 (Main.ListQuery.offset query))
             && Main.optional Schemas.is_Priority
                  (Main.ListQuery.priority query)
             && Main.optional (Schemas.length_between 1 100)
                  (Main.ListQuery.q query)
             && Schemas.literal Schemas.SortBy
                  (Main.default "todo_id"%string sort_by)
             && Schemas.literal Schemas.OrderBy
                  (Main.default "asc"%string (Main.ListQuery.order query))) ;;
     Main.list_todos engine db now
       (Main.default 10 (Main.ListQuery.limit query))
       (Main.default 0 (Main.ListQuery.offset query))
       (Main.ListQuery.priority query) (Main.ListQuery.status query)
       (Main.ListQuery.q query)
       (Main.default false (Main.ListQuery.overdue query))
       (Main.default "todo_id"%string sort_by)
       (Main.default "asc"%string (Main.ListQuery.order query))
       (Main.default false (Main.ListQuery.include_deleted query))).
Proof. reflexivity. Qed.

(** C7, as the code has it.  Where the other parameters of a listing are
    acceptable, [sort_by] is accepted exactly when it is one of todo_id,
    todo_name, priority, status, due_date, created_at, updated_at: such a
    value gets a 200 listing, every other value gets 422 and no listing,
    and a query without [sort_by] is answered as with todo_id. *)
Theorem sort_by_validated API_KEY engine db now query s :
  (exists todos,
      Main.list_todos_route engine db now (Spec.with_sort_by None query)
      = Return todos) ->
  (In s ["todo_id"; "todo_name"; "priority"; "status"; "due_date";
         "created_at"; "updated_at"]%string ->
   exists todos,
     Main.handle API_KEY engine db now
       (Main.GET_todos (Spec.with_sort_by (Some s) query))
     = (db, {| Main.status_code := 200; Main.content := Main.Todos todos |}))
  /\ (~ In s ["todo_id"; "todo_name"; "priority"; "status"; "due_date";
              "created_at"; "updated_at"]%string ->
      Main.handle API_KEY engine db now
        (Main.GET_todos (Spec.with_sort_by (Some s) query))
      = (db, Main.validation_exception_handler))
  /\ Main.handle API_KEY engine db now
       (Main.GET_todos (Spec.with_sort_by None query))
     = Main.handle API_KEY engine db now
         (Main.GET_todos (Spec.with_sort_by (Some "todo_id"%string) query)).
Proof.
  intros [todos0 H0]. rewrite list_todos_route_sort_by in H0.
  apply bind_return in H0. destruct H0 as ([] & Hvalid & _).
  apply validated_true in Hvalid.
  apply andb_prop in Hvalid. destruct Hvalid as [Hvalid Horder].
  apply andb_prop in Hvalid. destruct Hvalid as [Hrest _].
  split; [|split].
  - intro Hs. apply (literal_in Schemas.SortBy) in Hs.
    unfold Main.handle. rewrite list_todos_route_sort_by.
    simpl Main.default at 1 2 3 4 5 6 7.
    rewrite Hrest, Hs, Horder. simpl.
    destruct (list_todos_returns engine db now
                (Main.default 10 (Main.ListQuery.limit query))
                (Main.default 0 (Main.ListQuery.offset query))
                (Main.ListQuery.priority query) (Main.ListQuery.status query)
                (Main.ListQuery.q query)
                (Main.default false (Main.ListQuery.overdue query))
                s
                (Main.default "asc"%string (Main.ListQuery.order query))
                (Main.default false (Main.ListQuery.include_deleted query))
                Hs) as [todos Htodos].
    exists todos. now rewrite Htodos.
  - intro Hs.
    assert (Hlit : Schemas.literal Schemas.SortBy s = false).
    { destruct (Schemas.literal Schemas.SortBy s) eqn:E; [|reflexivity].
      apply literal_in in E. contradiction. }
    unfold Main.handle. rewrite list_todos_route_sort_by.
    simpl Main.default. rewrite Hlit, andb_false_r. reflexivity.
  - reflexivity.
Qed.

Lemma sort_by_validated_witness :
  (exists todos,
      Main.handle "name_here" Spec.sqlite Spec.eleven 100
        (Main.GET_todos
           (Spec.with_sort_by (Some "updated_at"%string) Spec.no_parameters))
      = (Spec.eleven,
         {| Main.status_code := 200; Main.content := Main.Todos todos |}))
  /\ Main.handle "name_here" Spec.sqlite Spec.eleven 100
       (Main.GET_todos
          (Spec.with_sort_by (Some "is_deleted"%string) Spec.no_parameters))
     = (Spec.eleven, Main.validation_exception_handler).
Proof.
  split.
  - apply (sort_by_validated "name_here" Spec.sqlite Spec.eleven 100
             Spec.no_parameters "updated_at").
    + eexists. reflexivity.
    + simpl. tauto.
  - apply (sort_by_validated "name_here" Spec.sqlite Spec.eleven 100
             Spec.no_parameters "is_deleted").
    + eexists. reflexivity.
    + simpl. intuition discriminate.
Defined.

(** C7, as stated, fails on the names: [sort_by=id] and [sort_by=name] are
    answered 422, and [sort_by=todo_id], which is not among the values the
    claim lists, is answered 200. *)
Lemma sort_by_id_rejected :
  Main.handle "name_here" Spec.sqlite Spec.eleven 100
    (Main.GET_todos (Spec.with_sort_by (Some "id"%string) Spec.no_parameters))
  = (Spec.eleven, Main.validation_exception_handler)
  /\ Main.handle "name_here" Spec.sqlite Spec.eleven 100
       (Main.GET_todos
          (Spec.with_sort_by (Some "name"%string) Spec.no_parameters))
     = (Spec.eleven, Main.validation_exception_handler)
  /\ Main.status_code
       (snd (Main.handle "name_here" Spec.sqlite Spec.eleven 100
               (Main.GET_todos
                  (Spec.with_sort_by (Some "todo_id"%string)
                     Spec.no_parameters))))
     = 200.
Proof. repeat split. Qed.

(** ** Export *)

Lemma export_rows_perm engine db include_deleted :
  Permutation (Main.export_rows engine db include_deleted)
    (Spec.counted db include_deleted).
Proof.
  unfold Main.export_rows, Spec.counted, Sql.all.
  rewrite order_by_perm. destruct include_deleted; simpl; [reflexivity|].
  now rewrite live_filter.
Qed.

Lemma export_rows_sorted engine db include_deleted :
  Sorted (fun a b => TodoModel.todo_id a <= TodoModel.todo_id b)
    (Main.export_rows engine db include_deleted).
Proof.
  unfold Main.export_rows, Sql.all.
  pose proof (order_by_monotonic engine
                (fun t => Sql.VInt (TodoModel.todo_id t)) false
                (if negb include_deleted
                 then filter
                        (fun t => Bool.eqb (TodoModel.is_deleted t) false) db
                 else db)) as H.
  unfold Spec.monotonic in H. exact H.
Qed.

(** C8, as the code has it.  Whatever the table and [include_deleted], the
    JSON export is the array of one object per row of the whole filtered
    set, in ascending id order and with no window cut out of it; each
    object has exactly the fields todo_id, todo_name, todo_description,
    priority, status, due_date, is_deleted, created_at, updated_at, and
    its due_date is null exactly when the row has none. *)
Theorem export_json_shape engine db include_deleted :
  exists rows,
    Main.export_todos engine db "json" include_deleted
    = Main.ExportJson (map Main.export_json_object rows)
    /\ Permutation rows (Spec.counted db include_deleted)
    /\ Sorted (fun a b => TodoModel.todo_id a <= TodoModel.todo_id b) rows
    /\ Forall
         (fun t =>
            Spec.keys (Main.export_json_object t)
            = ["todo_id"; "todo_name"; "todo_description"; "priority";
               "status"; "due_date"; "is_deleted"; "created_at";
               "updated_at"]%string
            /\ Spec.lookup "todo_id" (Main.export_json_object t)
               = Some (Main.JInt (TodoModel.todo_id t))
            /\ Spec.lookup "due_date" (Main.export_json_object t)
               = Some match TodoModel.due_date t with
                      | Some d => Main.JDatetime d
                      | None => Main.JNull
                      end)
         rows.
Proof.
  exists (Main.export_rows engine db include_deleted).
  split; [reflexivity|].
  split; [apply export_rows_perm|].
  split; [apply export_rows_sorted|].
  apply Forall_forall. intros t _. repeat split.
Qed.

(** C8, as stated, fails on the names: the objects have no field [id],
    [name] or [description]. *)
Lemma export_json_names :
  exists object,
    Main.export_todos Spec.sqlite [Spec.row 1 "task" false] "json" false
    = Main.ExportJson [object]
    /\ Spec.lookup "id" object = None
    /\ Spec.lookup "name" object = None
    /\ Spec.lookup "description" object = None
    /\ Spec.lookup "todo_id" object = Some (Main.JInt 1).
Proof. eexists. repeat split. Qed.

(** ** Lookup by id under the primary key *)

Lemma filter_none {A} (p : A -> bool) l :
  (forall x, In x l -> p x = false) -> filter p l = [].
Proof.
  induction l as [|x l IH]; intro H; simpl; [reflexivity|].
  rewrite (H x (or_introl eq_refl)). apply IH. intros y Hy. apply H. now right.
Qed.

Lemma filter_id_unique db t :
  Spec.primary_key db -> In t db ->
  filter (fun r => TodoModel.todo_id r =? TodoModel.todo_id t) db = [t].
Proof.
  unfold Spec.primary_key.
  induction db as [|x l IH]; intros Hpk Hin; [contradiction|].
  simpl in Hpk. inversion Hpk as [|? ? Hx Hl]; subst.
  simpl. destruct Hin as [-> | Hin].
  - rewrite Z.eqb_refl. f_equal. apply filter_none. intros y Hy.
    apply Z.eqb_neq. intro E. apply Hx. rewrite <- E. now apply in_map.
  - assert (E : (TodoModel.todo_id x =? TodoModel.todo_id t) = false).
    { apply Z.eqb_neq. intro E. apply Hx. rewrite E. now apply in_map. }
    rewrite E. now apply IH.
Qed.

Lemma primary_key_inj db a b :
  Spec.primary_key db -> In a db -> In b db ->
  TodoModel.todo_id a = TodoModel.todo_id b -> a = b.
Proof.
  intros Hpk Ha Hb E. pose proof (filter_id_unique db b Hpk Hb) as H.
  assert (Hin : In a (filter (fun r => TodoModel.todo_id r =? TodoModel.todo_id b) db)).
  { apply filter_In. split; [exact Ha | now apply Z.eqb_eq]. }
  rewrite H in Hin. destruct Hin as [<- | []]. reflexivity.
Qed.

Lemma get_or_404_found db t include_deleted :
  Spec.primary_key db -> In t db ->
  (include_deleted = false -> TodoModel.is_deleted t = false) ->
  Main.get_or_404 db (TodoModel.todo_id t) include_deleted = Return t.
Proof.
  intros Hpk Hin Hdel. unfold Main.get_or_404.
  rewrite (filter_id_unique db t Hpk Hin).
  destruct include_deleted; simpl; [reflexivity|].
  now rewrite (Hdel eq_refl).
Qed.

(** The table after the row of [row]'s id is overwritten with [row]. *)
Lemma commit_returns db now todo row :
  TodoModel.flush now todo = Return row ->
  Main.Session.commit db now todo
  = Return
      (map (fun r =>
              if TodoModel.todo_id r =? TodoModel.todo_id row then row else r)
         db,
       row).
Proof. intro H. unfold Main.Session.commit. now rewrite H. Qed.

Lemma overwrite_in db row t :
  In t db -> TodoModel.todo_id t = TodoModel.todo_id row ->
  In row
    (map (fun r =>
            if TodoModel.todo_id r =? TodoModel.todo_id row then row else r)
       db).
Proof.
  intros Hin E. apply in_map_iff. exists t. split; [|exact Hin].
  now rewrite E, Z.eqb_refl.
Qed.

Lemma overwrite_ids db row :
  map TodoModel.todo_id
    (map (fun r =>
            if TodoModel.todo_id r =? TodoModel.todo_id row then row else r)
       db)
  = map TodoModel.todo_id db.
Proof.
  rewrite map_map. apply map_ext. intro r.
  destruct (TodoModel.todo_id r =? TodoModel.todo_id row) eqn:E;
    [apply Z.eqb_eq in E; now rewrite E | reflexivity].
Qed.

Lemma option_eqb_refl {A} (eqb : A -> A -> bool) (x : option A) :
  (forall a, eqb a a = true) -> TodoModel.option_eqb eqb x x = true.
Proof. intro H. destruct x; simpl; auto. Qed.

Lemma dirty_set_is_deleted t b :
  TodoModel.dirty (TodoModel.set_is_deleted (TodoModel.load t) b)
  = negb (Bool.eqb b (TodoModel.is_deleted t)).
Proof.
  unfold TodoModel.dirty. simpl.
  rewrite !String.eqb_refl, Z.eqb_refl.
  now rewrite (option_eqb_refl Z.eqb _ Z.eqb_refl).
Qed.

(** ** The primary key on the tables the service reaches *)

Lemma max_id_bound (ids : list Z) x :
  In x ids -> x <= fold_right Z.max 0 ids.
Proof.
  induction ids as [|y ids IH]; simpl; [contradiction|].
  intros [-> | H]; [lia|]. specialize (IH H). lia.
Qed.

Lemma next_id_fresh db :
  ~ In (Main.Session.next_id db) (map TodoModel.todo_id db).
Proof.
  unfold Main.Session.next_id. intro H. apply max_id_bound in H. lia.
Qed.

Lemma add_primary_key db now name description priority status due_date :
  Spec.primary_key db ->
  Spec.primary_key
    (fst (Main.Session.add db now name description priority status due_date)).
Proof.
  unfold Spec.primary_key. intro H. simpl. rewrite map_app. simpl.
  apply (Permutation_NoDup (Permutation_cons_append _ _)).
  constructor; [apply next_id_fresh | exact H].
Qed.

Lemma commit_ids db now todo db' row :
  Main.Session.commit db now todo = Return (db', row) ->
  map TodoModel.todo_id db' = map TodoModel.todo_id db.
Proof.
  unfold Main.Session.commit.
  destruct (TodoModel.flush now todo) as [r|e]; simpl; [|discriminate].
  intros [= <- <-]. apply overwrite_ids.
Qed.

Lemma seed_data_primary_key db now db_now :
  Spec.primary_key db -> Spec.primary_key (Main.seed_data db now db_now).
Proof.
  intro H. unfold Main.seed_data. destruct (Sql.first _); [exact H|].
  now repeat apply add_primary_key.
Qed.

Lemma handle_primary_key API_KEY engine db now req :
  Spec.primary_key db ->
  Spec.primary_key (fst (Main.handle API_KEY engine db now req)).
Proof.
  intro Hdb.
  destruct req as [ | query | format incl | incl | i | key todo | key i payload
                   | key i payload | key i payload | key i | key i ];
    simpl Main.handle; rewrite ?reads_keeps; try exact Hdb;
    apply writes_keeps; try exact Hdb; intros db' a H; route_returned H.
  - injection H as <- <-. now apply add_primary_key.
  - handler_returned H todo Hin.
    unfold Spec.primary_key. now rewrite (commit_ids _ _ _ _ _ H).
  - handler_returned H todo Hin.
    apply bind_return in H. destruct H as (todo' & _ & H).
    unfold Spec.primary_key. now rewrite (commit_ids _ _ _ _ _ H).
  - handler_returned H todo Hin.
    unfold Spec.primary_key. now rewrite (commit_ids _ _ _ _ _ H).
  - handler_returned H todo Hin.
    unfold Spec.primary_key. now rewrite (commit_ids _ _ _ _ _ H).
  - handler_returned H todo Hin.
    apply bind_return in H. destruct H as ([db'' r] & H & Hret).
    injection Hret as <- <-.
    unfold Spec.primary_key. now rewrite (commit_ids _ _ _ _ _ H).
Qed.

(** Every table the service reaches has a primary key. *)
Lemma reachable_primary_key API_KEY engine db :
  Main.reachable API_KEY engine db -> Spec.primary_key db.
Proof.
  induction 1.
  - constructor.
  - now apply seed_data_primary_key.
  - now apply handle_primary_key.
Qed.

(** ** Soft delete, then restore *)

Section MapFacts.
Context {Row : Type}.
Variable f : Row -> Row.

Lemma filter_map_commute (p : Row -> bool) l :
  (forall x, p (f x) = p x) -> filter p (map f l) = map f (filter p l).
Proof.
  intro H. induction l as [|x l IH]; simpl; [reflexivity|].
  rewrite H, IH. now destruct (p x).
Qed.

Lemma insert_by_map (leb : Row -> Row -> bool) x l :
  (forall a b, leb (f a) (f b) = leb a b) ->
  Sql.insert_by leb (f x) (map f l) = map f (Sql.insert_by leb x l).
Proof.
  intro H. induction l as [|y l IH]; simpl; [reflexivity|].
  rewrite H, IH. now destruct (leb x y).
Qed.

Lemma order_by_map engine (col : Row -> Sql.Value) desc l :
  (forall x, col (f x) = col x) ->
  Sql.order_by engine col desc (map f l)
  = map f (Sql.order_by engine col desc l).
Proof.
  intro H. unfold Sql.order_by.
  induction l as [|x l IH]; simpl; [reflexivity|].
  rewrite IH. apply insert_by_map. intros a b. now rewrite !H.
Qed.

Lemma window_map limit offset l :
  Spec.window limit offset (map f l) = map f (Spec.window limit offset l).
Proof. unfold Spec.window. now rewrite skipn_map, firstn_map. Qed.
End MapFacts.

Lemma default_listing_eq engine db now :
  Spec.default_listing engine db now
  = Return
      (Spec.window 10 0
         (Sql.order_by engine (fun t => Sql.VInt (TodoModel.todo_id t)) false
            (filter (fun t => Bool.eqb (TodoModel.is_deleted t) false) db))).
Proof. reflexivity. Qed.

Lemma default_listing_touch engine db now todo_id updated_at :
  Spec.returned
    (Spec.default_listing engine (map (Spec.touch todo_id updated_at) db) now)
  = map (Spec.touch todo_id updated_at)
      (Spec.returned (Spec.default_listing engine db now)).
Proof.
  rewrite !default_listing_eq. simpl Spec.returned.
  rewrite filter_map_commute, order_by_map, window_map; try reflexivity;
    intro x; unfold Spec.touch;
    now destruct (TodoModel.todo_id x =? todo_id).
Qed.

Lemma default_listing_in engine db now t :
  In t (Spec.returned (Spec.default_listing engine db now)) -> In t db.
Proof.
  rewrite default_listing_eq. simpl. intro H.
  apply in_window, order_by_in, filter_In in H. tauto.
Qed.

Lemma flush_deleted now t b :
  TodoModel.is_deleted t = negb b ->
  TodoModel.flush now (TodoModel.set_is_deleted (TodoModel.load t) b)
  = Return
      {| TodoModel.todo_id := TodoModel.todo_id t;
         TodoModel.todo_name := TodoModel.todo_name t;
         TodoModel.todo_description := TodoModel.todo_description t;
         TodoModel.priority := TodoModel.priority t;
         TodoModel.status := TodoModel.status t;
         TodoModel.due_date := TodoModel.due_date t;
         TodoModel.is_deleted := b;
         TodoModel.created_at := TodoModel.created_at t;
         TodoModel.updated_at := now |}.
Proof.
  intro H. unfold TodoModel.flush.
  rewrite dirty_set_is_deleted, H. simpl.
  now destruct b.
Qed.

(** Deleting then restoring the row [t] of a table with a primary key. *)
Lemma delete_then_restore db now1 now2 t :
  Spec.primary_key db -> In t db -> TodoModel.is_deleted t = false ->
  exists db1,
    Main.delete_todo db now1 (TodoModel.todo_id t) = Return (db1, tt)
    /\ Main.restore_todo db1 now2 (TodoModel.todo_id t)
       = Return (map (Spec.touch (TodoModel.todo_id t) now2) db,
                 Spec.touched now2 t).
Proof.
  intros Hpk Hin Hlive.
  set (gone :=
         {| TodoModel.todo_id := TodoModel.todo_id t;
            TodoModel.todo_name := TodoModel.todo_name t;
            TodoModel.todo_description := TodoModel.todo_description t;
            TodoModel.priority := TodoModel.priority t;
            TodoModel.status := TodoModel.status t;
            TodoModel.due_date := TodoModel.due_date t;
            TodoModel.is_deleted := true;
            TodoModel.created_at := TodoModel.created_at t;
            TodoModel.updated_at := now1 |}).
  set (db1 :=
         map (fun r =>
                if TodoModel.todo_id r =? TodoModel.todo_id gone
                then gone else r) db).
  exists db1. split.
  - unfold Main.delete_todo.
    rewrite (get_or_404_found db t false Hpk Hin (fun _ => Hlive)).
    cbn [bind].
    rewrite (commit_returns db now1 _ gone); [reflexivity|].
    now apply flush_deleted.
  - assert (Hpk1 : Spec.primary_key db1).
    { unfold Spec.primary_key, db1. now rewrite overwrite_ids. }
    assert (Hin1 : In gone db1) by now apply (overwrite_in db gone t).
    unfold Main.restore_todo.
    change (TodoModel.todo_id t) with (TodoModel.todo_id gone).
    rewrite (get_or_404_found db1 gone true Hpk1 Hin1) by discriminate.
    cbn [bind].
    rewrite (commit_returns db1 now2 _ (Spec.touched now2 t)).
    + f_equal. f_equal. unfold db1. rewrite map_map.
      apply map_ext_in. intros r Hr. unfold Spec.touch. simpl.
      destruct (TodoModel.todo_id r =? TodoModel.todo_id t) eqn:E.
      * simpl. rewrite Z.eqb_refl.
        apply Z.eqb_eq in E.
        now rewrite (primary_key_inj db r t Hpk Hr Hin E).
      * now rewrite E.
    + rewrite (flush_deleted now2 gone false eq_refl).
      unfold Spec.touched. simpl. now rewrite Hlive.
Qed.

(** C5, as the code has it.  On a table with a primary key, deleting a
    live row and then restoring it gives back a row equal to the one
    before the delete in every field but updated_at; the row is in the
    table, can be fetched by id again, and the listing with default
    parameters returns it exactly when it returned the row before the
    delete. *)
Theorem delete_restore_roundtrip engine db now1 now2 now3 t :
  Spec.primary_key db ->
  In t db ->
  TodoModel.is_deleted t = false ->
  exists db1 db2 restored,
    Main.delete_todo db now1 (TodoModel.todo_id t) = Return (db1, tt)
    /\ Main.restore_todo db1 now2 (TodoModel.todo_id t)
       = Return (db2, restored)
    /\ restored = Spec.touched now2 t
    /\ Main.get_todo db2 (TodoModel.todo_id t) = Return restored
    /\ (In restored (Spec.returned (Spec.default_listing engine db2 now3))
        <-> In t (Spec.returned (Spec.default_listing engine db now3))).
Proof.
  intros Hpk Hin Hlive.
  destruct (delete_then_restore db now1 now2 t Hpk Hin Hlive)
    as (db1 & Hdel & Hres).
  exists db1, (map (Spec.touch (TodoModel.todo_id t) now2) db),
    (Spec.touched now2 t).
  assert (Htouch : Spec.touch (TodoModel.todo_id t) now2 t
                   = Spec.touched now2 t).
  { unfold Spec.touch. now rewrite Z.eqb_refl. }
  assert (Hids : map TodoModel.todo_id
                   (map (Spec.touch (TodoModel.todo_id t) now2) db)
                 = map TodoModel.todo_id db).
  { rewrite map_map. apply map_ext. intro r. unfold Spec.touch.
    now destruct (TodoModel.todo_id r =? TodoModel.todo_id t). }
  split; [exact Hdel|]. split; [exact Hres|]. split; [reflexivity|].
  split.
  - unfold Main.get_todo.
    change (TodoModel.todo_id t)
      with (TodoModel.todo_id (Spec.touched now2 t)) at 2.
    apply get_or_404_found.
    + unfold Spec.primary_key. now rewrite Hids.
    + rewrite <- Htouch. now apply in_map.
    + intros _. exact Hlive.
  - rewrite default_listing_touch, in_map_iff. split.
    + intros (r & Hr & Hrin).
      assert (E : TodoModel.todo_id r = TodoModel.todo_id t).
      { unfold Spec.touch in Hr.
        destruct (TodoModel.todo_id r =? TodoModel.todo_id t) eqn:E;
          [now apply Z.eqb_eq in E | now subst r]. }
      pose proof (default_listing_in _ _ _ _ Hrin) as Hrdb.
      now rewrite <- (primary_key_inj db r t Hpk Hrdb Hin E).
    + intro H. exists t. now split.
Qed.

Lemma delete_restore_roundtrip_witness :
  exists db1 db2 restored,
    Main.delete_todo [Spec.row 1 "task" false; Spec.row 2 "done" true] 20 1
    = Return (db1, tt)
    /\ Main.restore_todo db1 30 1 = Return (db2, restored)
    /\ restored = Spec.touched 30 (Spec.row 1 "task" false)
    /\ Main.get_todo db2 1 = Return restored
    /\ (In restored (Spec.returned (Spec.default_listing Spec.sqlite db2 40))
        <-> In (Spec.row 1 "task" false)
              (Spec.returned
                 (Spec.default_listing Spec.sqlite
                    [Spec.row 1 "task" false; Spec.row 2 "done" true] 40))).
Proof.
  apply (delete_restore_roundtrip Spec.sqlite
           [Spec.row 1 "task" false; Spec.row 2 "done" true] 20 30 40
           (Spec.row 1 "task" false)).
  - repeat constructor; simpl; intuition discriminate.
  - now left.
  - reflexivity.
Defined.

(** C5, as stated, fails past the first page: with eleven live rows the
    default listing returns ids 1 to 10, so the row of id 11, deleted and
    restored, is not in it (nor was it before). *)
Lemma restored_beyond_first_page :
  exists db1 db2 restored,
    Main.delete_todo Spec.eleven 20 11 = Return (db1, tt)
    /\ Main.restore_todo db1 30 11 = Return (db2, restored)
    /\ TodoModel.is_deleted restored = false
    /\ ~ In restored
           (Spec.returned (Spec.default_listing Spec.sqlite db2 40)).
Proof.
  do 3 eexists. split; [reflexivity|]. split; [reflexivity|].
  split; [reflexivity|].
  intro H. vm_compute in H.
  repeat (destruct H as [H|H]; [discriminate|]). exact H.
Qed.

(** ** Partial update *)

(** C6, as the code has it.  On a live row of a table with a primary
    key, a partial update that gives no explicit null for todo_name,
    todo_description, priority or status returns the updated row; every
    field the body leaves out keeps its value, due_date given as explicit
    null is cleared while due_date left out is kept, and todo_id,
    is_deleted and created_at are never touched. *)
Theorem partial_update_frame db now t payload :
  Spec.primary_key db ->
  In t db ->
  TodoModel.is_deleted t = false ->
  Spec.no_required_null payload = true ->
  exists db' t',
    Main.update_todo db now (TodoModel.todo_id t) payload = Return (db', t')
    /\ In t' db'
    /\ (Schemas.TodoUpdate.todo_name payload = Schemas.Omitted ->
        TodoModel.todo_name t' = TodoModel.todo_name t)
    /\ (Schemas.TodoUpdate.todo_description payload = Schemas.Omitted ->
        TodoModel.todo_description t' = TodoModel.todo_description t)
    /\ (Schemas.TodoUpdate.priority payload = Schemas.Omitted ->
        TodoModel.priority t' = TodoModel.priority t)
    /\ (Schemas.TodoUpdate.status payload = Schemas.Omitted ->
        TodoModel.status t' = TodoModel.status t)
    /\ (Schemas.TodoUpdate.due_date payload = Schemas.Omitted ->
        TodoModel.due_date t' = TodoModel.due_date t)
    /\ (Schemas.TodoUpdate.due_date payload = Schemas.Given None ->
        TodoModel.due_date t' = None)
    /\ TodoModel.todo_id t' = TodoModel.todo_id t
    /\ TodoModel.is_deleted t' = TodoModel.is_deleted t
    /\ TodoModel.created_at t' = TodoModel.created_at t.
Proof.
  intros Hpk Hin Hlive Hnull. unfold Main.update_todo.
  rewrite (get_or_404_found db t false Hpk Hin (fun _ => Hlive)).
  cbn [bind]. unfold Spec.no_required_null in Hnull.
  destruct payload as [n d p s dd]. simpl in Hnull |- *.
  destruct n as [|[n|]], d as [|[d|]], p as [|[p|]], s as [|[s|]];
    try discriminate; cbn [bind];
    destruct dd as [|[dd|]];
    (eexists; eexists;
     split; [apply commit_returns; reflexivity|];
     split; [now apply (overwrite_in db _ t)|];
     repeat split; intros; try discriminate; reflexivity).
Qed.

Lemma partial_update_frame_witness :
  exists db' t',
    Main.update_todo [Spec.row 1 "task" false] 100 1 Spec.null_due_date
    = Return (db', t')
    /\ TodoModel.due_date t' = None
    /\ TodoModel.todo_name t' = "task"%string.
Proof.
  destruct (partial_update_frame [Spec.row 1 "task" false] 100
              (Spec.row 1 "task" false) Spec.null_due_date)
    as (db' & t' & Hret & _ & Hname & _ & _ & _ & _ & Hdue & _).
  - repeat constructor; simpl; tauto.
  - now left.
  - reflexivity.
  - reflexivity.
  - exists db', t'. split; [exact Hret|]. split.
    + now apply Hdue.
    + now apply Hname.
Defined.

(** C6, as stated, fails on the four columns declared [nullable=False]:
    an explicit null for todo_name, todo_description or status is refused
    by the table at commit, one for priority by [int()] before that; the
    request is answered 500 and the row keeps its value. *)
Lemma required_null_not_cleared :
  Main.update_todo [Spec.row 1 "task" false] 100 1 Spec.null_todo_name
  = Raise IntegrityError
  /\ Main.update_todo [Spec.row 1 "task" false] 100 1
       Spec.null_todo_description
     = Raise IntegrityError
  /\ Main.update_todo [Spec.row 1 "task" false] 100 1 Spec.null_priority
     = Raise TypeError
  /\ Main.update_todo [Spec.row 1 "task" false] 100 1 Spec.null_status
     = Raise IntegrityError
  /\ Main.handle "name_here" Spec.sqlite [Spec.row 1 "task" false] 100
       (Main.PATCH_todo (Some "name_here"%string) 1 Spec.null_todo_name)
     = ([Spec.row 1 "task" false],
        {| Main.status_code := 500;
           Main.content := Main.InternalServerError |}).
Proof. repeat split. Qed.

(** ** LIKE and substrings *)












Lemma sqlite_folds_ascii : Spec.folds_ascii Spec.sqlite.
Proof. intros c _. reflexivity. Qed.


(** *** Case-insensitive, without reference to [lower] *)













(** * Further properties of the routes *)

(** ** Lookup *)

Lemma get_or_404_cases db todo_id include_deleted :
  (exists t, Main.get_or_404 db todo_id include_deleted = Return t)
  \/ Main.get_or_404 db todo_id include_deleted = Raise Derived.not_found.
Proof.
  unfold Main.get_or_404. destruct (Sql.first _); [left; eauto | now right].
Qed.

Lemma get_or_404_hidden db t :
  Spec.primary_key db -> In t db -> TodoModel.is_deleted t = true ->
  Main.get_or_404 db (TodoModel.todo_id t) false = Raise Derived.not_found.
Proof.
  intros Hpk Hin Hdel. unfold Main.get_or_404.
  rewrite (filter_id_unique db t Hpk Hin). simpl. now rewrite Hdel.
Qed.

(** [get_todo], under the primary key: it returns a row exactly when that
    row is in the table, has the id asked for and is not soft deleted; when
    every row of that id is soft deleted, or there is none, it raises 404
    "Todo not found". *)
Theorem get_todo_finds db todo_id :
  Spec.primary_key db ->
  (forall t,
      Main.get_todo db todo_id = Return t
      <-> In t db /\ TodoModel.todo_id t = todo_id
          /\ TodoModel.is_deleted t = false)
  /\ ((forall t, In t db -> TodoModel.todo_id t = todo_id ->
                 TodoModel.is_deleted t = true) ->
      Main.get_todo db todo_id = Raise (HTTPException 404 "Todo not found")).
Proof.
  intro Hpk. unfold Main.get_todo. split.
  - intro t. split.
    + intro H. apply get_or_404_in in H. destruct H as (Hin & Hid & Hlive).
      auto.
    + intros (Hin & <- & Hlive). now apply get_or_404_found.
  - intro Hnone.
    destruct (get_or_404_cases db todo_id false) as [[t H] | H]; [|exact H].
    apply get_or_404_in in H. destruct H as (Hin & Hid & Hlive).
    rewrite (Hnone t Hin Hid) in Hlive. now specialize (Hlive eq_refl).
Qed.

Lemma get_todo_finds_witness :
  Main.get_todo [Spec.row 1 "task" false; Spec.row 2 "done" true] 2
  = Raise (HTTPException 404 "Todo not found").
Proof.
  apply (get_todo_finds [Spec.row 1 "task" false; Spec.row 2 "done" true] 2).
  - repeat constructor; simpl; intuition discriminate.
  - intros t [<- | [<- | []]]; [discriminate | reflexivity].
Defined.

(** ** Create *)

(** [create_todo] behind its route: with the right key and a valid body it
    answers 201 with a row that carries the body's five fields, is not
    soft deleted, has both timestamps equal, and whose id is at least 1
    and used by no row of the table; the table afterwards is the table
    before with that row at its end. *)
Theorem create_appends API_KEY engine db now key todo :
  Main.x_api_key_header key = API_KEY ->
  Schemas.TodoBase.valid todo = true ->
  exists row,
    Main.handle API_KEY engine db now (Main.POST_todos key todo)
    = (db ++ [row],
       {| Main.status_code := 201; Main.content := Main.Todo row |})
    /\ 1 <= TodoModel.todo_id row
    /\ ~ In (TodoModel.todo_id row) (map TodoModel.todo_id db)
    /\ TodoModel.todo_name row = Schemas.TodoBase.todo_name todo
    /\ TodoModel.todo_description row = Schemas.TodoBase.todo_description todo
    /\ TodoModel.priority row = Schemas.TodoBase.priority todo
    /\ TodoModel.status row = Schemas.TodoBase.status todo
    /\ TodoModel.due_date row = Schemas.TodoBase.due_date todo
    /\ TodoModel.is_deleted row = false
    /\ TodoModel.created_at row = now
    /\ TodoModel.updated_at row = now.
Proof.
  intros Hkey Hvalid.
  eexists. split.
  - unfold Main.handle. rewrite gate_open by (rewrite Hkey; apply String.eqb_refl).
    rewrite Hvalid. reflexivity.
  - simpl. split.
    + unfold Main.Session.next_id.
      assert (0 <= fold_right Z.max 0 (map TodoModel.todo_id db)).
      { generalize (map TodoModel.todo_id db). intro l.
        induction l; simpl; lia. }
      lia.
    + split; [apply next_id_fresh|]. repeat split.
Qed.

Lemma create_appends_witness :
  exists row,
    Main.handle "name_here" Spec.sqlite Spec.eleven 100
      (Main.POST_todos (Some "name_here"%string) Spec.buy_milk)
    = (Spec.eleven ++ [row],
       {| Main.status_code := 201; Main.content := Main.Todo row |})
    /\ TodoModel.todo_id row = 12.
Proof.
  destruct (create_appends "name_here" Spec.sqlite Spec.eleven 100
              (Some "name_here"%string) Spec.buy_milk eq_refl eq_refl)
    as (row & H & _).
  exists row. split; [exact H|].
  injection H as H _. now rewrite <- H.
Defined.

(** ** What a commit writes *)

Lemma flush_fields now o r :
  TodoModel.flush now o = Return r ->
  TodoModel.todo_id r = TodoModel.todo_id (TodoModel.loaded o)
  /\ TodoModel.created_at r = TodoModel.created_at (TodoModel.loaded o)
  /\ TodoModel.is_deleted r = TodoModel.attr_is_deleted o
  /\ TodoModel.due_date r = TodoModel.attr_due_date o
  /\ TodoModel.attr_todo_name o = Some (TodoModel.todo_name r)
  /\ TodoModel.attr_todo_description o = Some (TodoModel.todo_description r)
  /\ TodoModel.attr_priority o = Some (TodoModel.priority r)
  /\ TodoModel.attr_status o = Some (TodoModel.status r).
Proof.
  unfold TodoModel.flush.
  destruct (TodoModel.attr_todo_name o), (TodoModel.attr_todo_description o),
    (TodoModel.attr_priority o), (TodoModel.attr_status o);
    try discriminate.
  intros [= <-]. simpl. repeat split.
Qed.

Lemma commit_inv db now o db' row :
  Main.Session.commit db now o = Return (db', row) ->
  TodoModel.flush now o = Return row
  /\ db' = map (fun r =>
                  if TodoModel.todo_id r =? TodoModel.todo_id row
                  then row else r) db.
Proof.
  unfold Main.Session.commit.
  destruct (TodoModel.flush now o) as [r|e]; simpl; [|discriminate].
  intros [= <- <-]. now split.
Qed.

Lemma overwrite_others db row t :
  In t db -> TodoModel.todo_id t <> TodoModel.todo_id row ->
  In t
    (map (fun r =>
            if TodoModel.todo_id r =? TodoModel.todo_id row then row else r)
       db).
Proof.
  intros Hin Hne. apply in_map_iff. exists t. split; [|exact Hin].
  apply Z.eqb_neq in Hne. now rewrite Hne.
Qed.

(** A commit on a row found in a table with a primary key: the row
    written is in the table, every other row is as it was, and the table
    keeps its primary key and its length. *)
Lemma committed db now o db' row :
  Spec.primary_key db ->
  In (TodoModel.loaded o) db ->
  Main.Session.commit db now o = Return (db', row) ->
  TodoModel.flush now o = Return row
  /\ Spec.primary_key db'
  /\ In row db'
  /\ (forall t, In t db -> TodoModel.todo_id t <> TodoModel.todo_id row ->
                In t db')
  /\ List.length db' = List.length db.
Proof.
  intros Hpk Hin H.
  pose proof (commit_ids _ _ _ _ _ H) as Hids.
  apply commit_inv in H. destruct H as [Hflush ->].
  pose proof (flush_fields _ _ _ Hflush) as (Hid & _).
  split; [exact Hflush|].
  split; [unfold Spec.primary_key; now rewrite Hids|].
  split; [now apply (overwrite_in db row (TodoModel.loaded o))|].
  split; [intros t Ht Hne; now apply overwrite_others|].
  apply length_map.
Qed.

(** ** Soft-deleted rows and the per-id routes *)

(** A soft-deleted row of a table with a primary key is out of reach of
    every per-id handler but [restore_todo]: get, replace, partial update,
    status update and delete on its id all raise 404, whatever the body,
    while restore returns the row with [is_deleted] cleared. *)
Theorem soft_deleted_hidden db now t replacement patch new_status :
  Spec.primary_key db ->
  In t db ->
  TodoModel.is_deleted t = true ->
  Main.get_todo db (TodoModel.todo_id t) = Raise Derived.not_found
  /\ Main.replace_todo db now (TodoModel.todo_id t) replacement
     = Raise Derived.not_found
  /\ Main.update_todo db now (TodoModel.todo_id t) patch
     = Raise Derived.not_found
  /\ Main.update_todo_status db now (TodoModel.todo_id t) new_status
     = Raise Derived.not_found
  /\ Main.delete_todo db now (TodoModel.todo_id t) = Raise Derived.not_found
  /\ exists db',
       Main.restore_todo db now (TodoModel.todo_id t)
       = Return (db', Derived.marked false now t)
       /\ In (Derived.marked false now t) db'.
Proof.
  intros Hpk Hin Hdel.
  pose proof (get_or_404_hidden db t Hpk Hin Hdel) as H404.
  unfold Main.get_todo, Main.replace_todo, Main.update_todo,
    Main.update_todo_status, Main.delete_todo.
  rewrite H404. cbn [bind]. repeat (split; [reflexivity|]).
  unfold Main.restore_todo.
  rewrite (get_or_404_found db t true Hpk Hin) by discriminate.
  cbn [bind]. eexists. split.
  - apply commit_returns. now apply flush_deleted.
  - now apply (overwrite_in db _ t).
Qed.

Lemma soft_deleted_hidden_witness :
  Main.update_todo [Spec.row 1 "task" false; Spec.row 2 "done" true] 100 2
    Spec.null_due_date
  = Raise Derived.not_found
  /\ Main.delete_todo [Spec.row 1 "task" false; Spec.row 2 "done" true] 100 2
     = Raise Derived.not_found.
Proof.
  destruct (soft_deleted_hidden
              [Spec.row 1 "task" false; Spec.row 2 "done" true] 100
              (Spec.row 2 "done" true) Spec.buy_milk Spec.null_due_date
              {| Schemas.TodoStatusUpdate.status := "DONE" |})
    as (_ & _ & Hpatch & _ & Hdelete & _).
  - repeat constructor; simpl; intuition discriminate.
  - right. now left.
  - reflexivity.
  - now split.
Defined.

(** [delete_todo] on a live row of a table with a primary key: it
    returns, the row is kept with [is_deleted] set and [updated_at] moved
    to now, every other row is as it was, no row is removed, and a second
    delete of the same id raises 404. *)
Theorem delete_todo_marks db now later t :
  Spec.primary_key db ->
  In t db ->
  TodoModel.is_deleted t = false ->
  exists db',
    Main.delete_todo db now (TodoModel.todo_id t) = Return (db', tt)
    /\ In (Derived.marked true now t) db'
    /\ (forall r, In r db -> TodoModel.todo_id r <> TodoModel.todo_id t ->
                  In r db')
    /\ map TodoModel.todo_id db' = map TodoModel.todo_id db
    /\ Main.delete_todo db' later (TodoModel.todo_id t)
       = Raise Derived.not_found.
Proof.
  intros Hpk Hin Hlive.
  assert (Hflush :
            TodoModel.flush now
              (TodoModel.set_is_deleted (TodoModel.load t) true)
            = Return (Derived.marked true now t)).
  { apply flush_deleted. now rewrite Hlive. }
  pose proof (commit_returns db now _ _ Hflush) as Hcommit.
  destruct (committed db now
              (TodoModel.set_is_deleted (TodoModel.load t) true) _ _
              Hpk Hin Hcommit)
    as (_ & Hpk' & Hin' & Hframe & _).
  eexists. split.
  - unfold Main.delete_todo.
    rewrite (get_or_404_found db t false Hpk Hin (fun _ => Hlive)).
    cbn [bind]. rewrite Hcommit. reflexivity.
  - split; [exact Hin'|]. split; [exact Hframe|].
    split; [apply overwrite_ids|].
    unfold Main.delete_todo.
    change (TodoModel.todo_id t)
      with (TodoModel.todo_id (Derived.marked true now t)).
    now rewrite (get_or_404_hidden _ _ Hpk' Hin').
Qed.

Lemma delete_todo_marks_witness :
  exists db',
    Main.delete_todo Spec.eleven 100 3 = Return (db', tt)
    /\ In (Derived.marked true 100 (Spec.row 3 "task" false)) db'
    /\ Main.delete_todo db' 200 3 = Raise Derived.not_found.
Proof.
  destruct (delete_todo_marks Spec.eleven 100 200 (Spec.row 3 "task" false))
    as (db' & H1 & H2 & _ & _ & H3).
  - repeat constructor; simpl; intuition discriminate.
  - simpl. tauto.
  - reflexivity.
  - exists db'. auto.
Defined.

(** ** Replace and status update *)

(** [replace_todo] on a live row of a table with a primary key: it
    returns a row that takes all five fields of the body, [due_date]
    included even when the body gives none, and keeps the id, the
    soft-delete flag and the creation time; the row is in the table and
    every other row is as it was. *)
Theorem replace_todo_sets_all db now t payload :
  Spec.primary_key db ->
  In t db ->
  TodoModel.is_deleted t = false ->
  exists db' r,
    Main.replace_todo db now (TodoModel.todo_id t) payload = Return (db', r)
    /\ In r db'
    /\ TodoModel.todo_name r = Schemas.TodoBase.todo_name payload
    /\ TodoModel.todo_description r = Schemas.TodoBase.todo_description payload
    /\ TodoModel.priority r = Schemas.TodoBase.priority payload
    /\ TodoModel.status r = Schemas.TodoBase.status payload
    /\ TodoModel.due_date r = Schemas.TodoBase.due_date payload
    /\ TodoModel.todo_id r = TodoModel.todo_id t
    /\ TodoModel.is_deleted r = false
    /\ TodoModel.created_at r = TodoModel.created_at t
    /\ (forall other, In other db ->
          TodoModel.todo_id other <> TodoModel.todo_id t -> In other db')
    /\ map TodoModel.todo_id db' = map TodoModel.todo_id db.
Proof.
  intros Hpk Hin Hlive. unfold Main.replace_todo.
  rewrite (get_or_404_found db t false Hpk Hin (fun _ => Hlive)).
  cbn [bind]. eexists. eexists. split.
  - apply commit_returns. reflexivity.
  - split; [now apply (overwrite_in db _ t)|].
    repeat match goal with |- _ /\ _ => split end;
      try reflexivity; try exact Hlive; try apply overwrite_ids.
    intros other Ho Hne. now apply overwrite_others.
Qed.

Lemma replace_todo_sets_all_witness :
  exists db' r,
    Main.replace_todo [Spec.row 1 "task" false] 100 1 Spec.buy_milk
    = Return (db', r)
    /\ TodoModel.todo_name r = "Buy milk"%string
    /\ TodoModel.due_date r = None.
Proof.
  destruct (replace_todo_sets_all [Spec.row 1 "task" false] 100
              (Spec.row 1 "task" false) Spec.buy_milk)
    as (db' & r & H & _ & Hname & _ & _ & _ & Hdue & _).
  - repeat constructor; simpl; tauto.
  - now left.
  - reflexivity.
  - exists db', r. auto.
Defined.

(** [update_todo_status] on a live row of a table with a primary key: it
    returns for any status, whatever the row's current one; the row
    returned has the new status and differs from the old row in nothing
    else but, possibly, [updated_at]; every other row is as it was. *)
Theorem update_todo_status_only db now t payload :
  Spec.primary_key db ->
  In t db ->
  TodoModel.is_deleted t = false ->
  exists db' r,
    Main.update_todo_status db now (TodoModel.todo_id t) payload
    = Return (db', r)
    /\ In r db'
    /\ TodoModel.status r = Schemas.TodoStatusUpdate.status payload
    /\ TodoModel.todo_id r = TodoModel.todo_id t
    /\ TodoModel.todo_name r = TodoModel.todo_name t
    /\ TodoModel.todo_description r = TodoModel.todo_description t
    /\ TodoModel.priority r = TodoModel.priority t
    /\ TodoModel.due_date r = TodoModel.due_date t
    /\ TodoModel.is_deleted r = TodoModel.is_deleted t
    /\ TodoModel.created_at r = TodoModel.created_at t
    /\ (forall other, In other db ->
          TodoModel.todo_id other <> TodoModel.todo_id t -> In other db')
    /\ map TodoModel.todo_id db' = map TodoModel.todo_id db.
Proof.
  intros Hpk Hin Hlive. unfold Main.update_todo_status.
  rewrite (get_or_404_found db t false Hpk Hin (fun _ => Hlive)).
  cbn [bind]. eexists. eexists. split.
  - apply commit_returns. reflexivity.
  - split; [now apply (overwrite_in db _ t)|].
    repeat match goal with |- _ /\ _ => split end;
      try reflexivity; try exact Hlive; try apply overwrite_ids.
    intros other Ho Hne. now apply overwrite_others.
Qed.

Lemma update_todo_status_only_witness :
  exists db' r,
    Main.update_todo_status [Spec.row 1 "task" false] 100 1
      {| Schemas.TodoStatusUpdate.status := "DONE" |}
    = Return (db', r)
    /\ TodoModel.status r = "DONE"%string
    /\ TodoModel.todo_name r = "task"%string.
Proof.
  destruct (update_todo_status_only [Spec.row 1 "task" false] 100
              (Spec.row 1 "task" false)
              {| Schemas.TodoStatusUpdate.status := "DONE" |})
    as (db' & r & H & _ & Hstatus & _ & Hname & _).
  - repeat constructor; simpl; tauto.
  - now left.
  - reflexivity.
  - exists db', r. auto.
Defined.

(** ** Reading back what was written *)

Lemma next_id_positive db : 1 <= Main.Session.next_id db.
Proof.
  unfold Main.Session.next_id.
  assert (0 <= fold_right Z.max 0 (map TodoModel.todo_id db)).
  { generalize (map TodoModel.todo_id db). intro l.
    induction l; simpl; lia. }
  lia.
Qed.

Lemma get_answers API_KEY engine db now r :
  Spec.primary_key db -> In r db -> TodoModel.is_deleted r = false ->
  1 <= TodoModel.todo_id r ->
  Main.handle API_KEY engine db now (Main.GET_todo (TodoModel.todo_id r))
  = (db, {| Main.status_code := 200; Main.content := Main.Todo r |}).
Proof.
  intros Hpk Hin Hlive Hid. unfold Main.handle, Main.get_todo.
  apply Z.leb_le in Hid. rewrite Hid. cbn [Main.validated bind].
  now rewrite (get_or_404_found db r false Hpk Hin (fun _ => Hlive)).
Qed.

(** A handler that looked a row up and committed an instance of it. *)
Lemma lookup_commit db now i include_deleted todo o db' r :
  Spec.primary_key db ->
  Main.get_or_404 db i include_deleted = Return todo ->
  TodoModel.loaded o = todo ->
  Main.Session.commit db now o = Return (db', r) ->
  Spec.primary_key db' /\ In r db' /\ TodoModel.todo_id r = i
  /\ TodoModel.is_deleted r = TodoModel.attr_is_deleted o
  /\ TodoModel.created_at r = TodoModel.created_at todo
  /\ map TodoModel.todo_id db' = map TodoModel.todo_id db.
Proof.
  intros Hpk Hget Hloaded Hcommit.
  apply get_or_404_in in Hget. destruct Hget as (Hin & Hid & _).
  pose proof (commit_ids _ _ _ _ _ Hcommit) as Hids.
  rewrite <- Hloaded in Hin.
  destruct (committed db now o db' r Hpk Hin Hcommit)
    as (Hflush & Hpk' & Hin' & _).
  apply flush_fields in Hflush.
  destruct Hflush as (Hrid & Hcreated & Hdel & _).
  rewrite Hloaded in Hrid, Hcreated.
  repeat split; auto. congruence.
Qed.

(** The instance [update_todo] commits is the row it looked up, with
    [is_deleted] as found. *)
Lemma update_todo_instance db now i payload db' r :
  Main.update_todo db now i payload = Return (db', r) ->
  exists todo o,
    Main.get_or_404 db i false = Return todo
    /\ TodoModel.loaded o = todo
    /\ TodoModel.attr_is_deleted o = TodoModel.is_deleted todo
    /\ Main.Session.commit db now o = Return (db', r).
Proof.
  unfold Main.update_todo. intro H.
  apply bind_return in H. destruct H as (todo & Hget & H).
  apply bind_return in H. destruct H as (o' & Hp & H).
  exists todo. eexists. split; [exact Hget|].
  split; [|split; [|exact H]];
    destruct (Schemas.TodoUpdate.priority payload) as [|[p|]];
    try discriminate; injection Hp as <-;
    destruct (Schemas.TodoUpdate.todo_name payload),
      (Schemas.TodoUpdate.todo_description payload),
      (Schemas.TodoUpdate.status payload),
      (Schemas.TodoUpdate.due_date payload); reflexivity.
Qed.

(** Read your writes.  On a table with a primary key, whenever a
    mutating route answers with a row (create, replace, partial update,
    status update, restore), a get of that row's id on the table the
    request left behind is answered 200 with the very same row. *)
Theorem read_your_writes API_KEY engine db now later req r :
  Spec.primary_key db ->
  Derived.is_read req = false ->
  Derived.todo_of (snd (Main.handle API_KEY engine db now req)) = Some r ->
  Main.handle API_KEY engine (fst (Main.handle API_KEY engine db now req))
    later (Main.GET_todo (TodoModel.todo_id r))
  = (fst (Main.handle API_KEY engine db now req),
     {| Main.status_code := 200; Main.content := Main.Todo r |}).
Proof.
  intros Hpk Hread Hr.
  destruct req as [ | query | format incl | incl | i | key todo | key i payload
                   | key i payload | key i payload | key i | key i ];
    try discriminate Hread; clear Hread;
    cbn [Main.handle] in Hr |- *; unfold Main.writes in Hr |- *;
    match type of Hr with
    | context [match ?c with _ => _ end] =>
        destruct c as [[db' a]|e] eqn:H
    end;
    try (destruct e; discriminate Hr); try discriminate Hr;
    injection Hr as ->; cbn [fst]; route_returned H.
  - injection H as <- <-.
    apply (get_answers API_KEY engine _ later).
    + now apply add_primary_key.
    + apply in_or_app. right. now left.
    + reflexivity.
    + apply next_id_positive.
  - apply andb_prop in Hvalid. destruct Hvalid as [Hid _].
    apply bind_return in H. destruct H as (todo & Hget & H).
    cbv zeta in H.
    eapply (lookup_commit _ _ _ _ _ _ _ _ Hpk Hget) in H; [|reflexivity].
    destruct H as (Hpk' & Hin' & <- & Hdel & _).
    apply get_or_404_in in Hget. destruct Hget as (_ & _ & Hlive).
    apply (get_answers API_KEY engine _ later); auto.
    + rewrite Hdel. now apply Hlive.
    + now apply Z.leb_le.
  - apply andb_prop in Hvalid. destruct Hvalid as [Hid _].
    apply update_todo_instance in H.
    destruct H as (todo & o & Hget & Hloaded & Hdel' & H).
    destruct (lookup_commit _ _ _ _ _ _ _ _ Hpk Hget Hloaded H)
      as (Hpk' & Hin' & <- & Hdel & _).
    apply get_or_404_in in Hget. destruct Hget as (_ & _ & Hlive).
    apply (get_answers API_KEY engine _ later); auto.
    + rewrite Hdel, Hdel'. now apply Hlive.
    + now apply Z.leb_le.
  - apply andb_prop in Hvalid. destruct Hvalid as [Hid _].
    apply bind_return in H. destruct H as (todo & Hget & H).
    cbv zeta in H.
    eapply (lookup_commit _ _ _ _ _ _ _ _ Hpk Hget) in H; [|reflexivity].
    destruct H as (Hpk' & Hin' & <- & Hdel & _).
    apply get_or_404_in in Hget. destruct Hget as (_ & _ & Hlive).
    apply (get_answers API_KEY engine _ later); auto.
    + rewrite Hdel. now apply Hlive.
    + now apply Z.leb_le.
  - rename Hvalid into Hid.
    apply bind_return in H. destruct H as (todo & Hget & H).
    cbv zeta in H.
    eapply (lookup_commit _ _ _ _ _ _ _ _ Hpk Hget) in H; [|reflexivity].
    destruct H as (Hpk' & Hin' & <- & Hdel & _).
    apply (get_answers API_KEY engine _ later); auto. now apply Z.leb_le.
Qed.

Lemma read_your_writes_witness :
  Main.handle "name_here" Spec.sqlite
    (fst (Main.handle "name_here" Spec.sqlite [Spec.row 1 "task" false] 100
            (Main.PUT_todo (Some "name_here"%string) 1 Spec.buy_milk)))
    200 (Main.GET_todo 1)
  = (fst (Main.handle "name_here" Spec.sqlite [Spec.row 1 "task" false] 100
            (Main.PUT_todo (Some "name_here"%string) 1 Spec.buy_milk)),
     {| Main.status_code := 200;
        Main.content :=
          Main.Todo
            {| TodoModel.todo_id := 1;
               TodoModel.todo_name := "Buy milk";
               TodoModel.todo_description := "2%";
               TodoModel.priority := 2;
               TodoModel.status := "NEW";
               TodoModel.due_date := None;
               TodoModel.is_deleted := false;
               TodoModel.created_at := 10;
               TodoModel.updated_at := 100 |} |}).
Proof.
  apply (read_your_writes "name_here" Spec.sqlite [Spec.row 1 "task" false]
           100 200 (Main.PUT_todo (Some "name_here"%string) 1 Spec.buy_milk)
           {| TodoModel.todo_id := 1;
              TodoModel.todo_name := "Buy milk";
              TodoModel.todo_description := "2%";
              TodoModel.priority := 2;
              TodoModel.status := "NEW";
              TodoModel.due_date := None;
              TodoModel.is_deleted := false;
              TodoModel.created_at := 10;
              TodoModel.updated_at := 100 |}).
  - repeat constructor; simpl; tauto.
  - reflexivity.
  - reflexivity.
Defined.

(** ** What no request does *)

Lemma bind_raise {A B} (m : Raises A) (k : A -> Raises B) e :
  bind m k = Raise e ->
  m = Raise e \/ exists a, m = Return a /\ k a = Raise e.
Proof. destruct m as [a|e']; simpl; [eauto | intros [= <-]; now left]. Qed.








(** A listing is never answered with anything but its rows or a
    validation error: a [sort_by] that passed validation names a column. *)
Lemma list_todos_route_raises engine db now query e :
  Main.list_todos_route engine db now query = Raise e ->
  e = RequestValidationError.
Proof.
  unfold Main.list_todos_route. intro H. apply bind_raise in H.
  destruct H as [H | ([] & Hvalid & H)].
  - unfold Main.validated in H. destruct (_ && _); congruence.
  - apply validated_true in Hvalid.
    apply andb_prop in Hvalid. destruct Hvalid as [Hvalid _].
    apply andb_prop in Hvalid. destruct Hvalid as [_ Hsort].
    destruct (list_todos_returns engine db now
                (Main.default 10 (Main.ListQuery.limit query))
                (Main.default 0 (Main.ListQuery.offset query))
                (Main.ListQuery.priority query) (Main.ListQuery.status query)
                (Main.ListQuery.q query)
                (Main.default false (Main.ListQuery.overdue query))
                _
                (Main.default "asc"%string (Main.ListQuery.order query))
                (Main.default false (Main.ListQuery.include_deleted query))
                Hsort) as [todos Htodos].
    rewrite Htodos in H. discriminate.
Qed.





(** ** No row is ever removed *)

Lemma commit_identities db now o db' row :
  Spec.primary_key db ->
  In (TodoModel.loaded o) db ->
  Main.Session.commit db now o = Return (db', row) ->
  map Derived.identity db' = map Derived.identity db.
Proof.
  intros Hpk Hin H. apply commit_inv in H. destruct H as [Hflush ->].
  apply flush_fields in Hflush. destruct Hflush as (Hid & Hcreated & _).
  rewrite map_map. apply map_ext_in. intros r Hr.
  destruct (TodoModel.todo_id r =? TodoModel.todo_id row) eqn:E;
    [|reflexivity].
  apply Z.eqb_eq in E. rewrite Hid in E.
  rewrite (primary_key_inj db r _ Hpk Hr Hin E).
  unfold Derived.identity. now rewrite Hid, Hcreated.
Qed.

Lemma lookup_commit_identities db now i include_deleted todo o db' row :
  Spec.primary_key db ->
  Main.get_or_404 db i include_deleted = Return todo ->
  TodoModel.loaded o = todo ->
  Main.Session.commit db now o = Return (db', row) ->
  map Derived.identity db' = map Derived.identity db.
Proof.
  intros Hpk Hget Hloaded H. apply get_or_404_in in Hget.
  destruct Hget as (Hin & _). rewrite <- Hloaded in Hin.
  eapply commit_identities; eauto.
Qed.

(** There is no hard delete.  Whatever the request, on a table with a
    primary key the rows afterwards are, by id and creation time and in
    order, the rows before, followed by at most one new row; only a
    create adds one. *)
Theorem identities_kept API_KEY engine db now req :
  Spec.primary_key db ->
  exists added,
    map Derived.identity (fst (Main.handle API_KEY engine db now req))
    = map Derived.identity db ++ added
    /\ (added = []
        \/ exists key todo row,
             req = Main.POST_todos key todo /\ added = [Derived.identity row]).
Proof.
  intro Hpk.
  assert (Hsame : forall db',
             map Derived.identity db' = map Derived.identity db ->
             exists added,
               map Derived.identity db' = map Derived.identity db ++ added
               /\ (added = []
                   \/ exists key todo row,
                        req = Main.POST_todos key todo
                        /\ added = [Derived.identity row])).
  { intros db' H. exists []. rewrite app_nil_r. auto. }
  destruct req as [ | query | format incl | incl | i | key todo | key i payload
                   | key i payload | key i payload | key i | key i ];
    cbn [Main.handle]; rewrite ?reads_keeps; try (now apply Hsame);
    unfold Main.writes;
    match goal with
    | |- context [match ?c with _ => _ end] =>
        destruct c as [[db' a]|e] eqn:H
    end; cbn [fst]; try (now apply Hsame); route_returned H.
  - unfold Main.create_todo, Main.Session.add in H.
    injection H as <- Ha. exists [Derived.identity a]. split.
    + rewrite map_app, <- Ha. reflexivity.
    + right. exists key, todo, a. now split.
  - apply Hsame. apply bind_return in H. destruct H as (t & Hget & H).
    cbv zeta in H.
    eapply (lookup_commit_identities _ _ _ _ _ _ _ _ Hpk Hget) in H; auto.
  - apply Hsame. apply update_todo_instance in H.
    destruct H as (t & o & Hget & Hloaded & _ & H).
    eapply lookup_commit_identities; eauto.
  - apply Hsame. apply bind_return in H. destruct H as (t & Hget & H).
    cbv zeta in H.
    eapply (lookup_commit_identities _ _ _ _ _ _ _ _ Hpk Hget) in H; auto.
  - apply Hsame. apply bind_return in H. destruct H as (t & Hget & H).
    cbv zeta in H.
    eapply (lookup_commit_identities _ _ _ _ _ _ _ _ Hpk Hget) in H; auto.
  - apply Hsame. apply bind_return in H. destruct H as (t & Hget & H).
    cbv zeta in H.
    apply bind_return in H. destruct H as ([db'' r] & H & Hret).
    injection Hret as <- <-.
    eapply (lookup_commit_identities _ _ _ _ _ _ _ _ Hpk Hget) in H; auto.
Qed.

Lemma identities_kept_witness :
  exists added,
    map Derived.identity
      (fst (Main.handle "name_here" Spec.sqlite Spec.eleven 100
              (Main.DELETE_todo (Some "name_here"%string) 4)))
    = map Derived.identity Spec.eleven ++ added
    /\ (added = []
        \/ exists key todo row,
             Main.DELETE_todo (Some "name_here"%string) 4
             = Main.POST_todos key todo
             /\ added = [Derived.identity row]).
Proof.
  apply (identities_kept "name_here" Spec.sqlite Spec.eleven 100
           (Main.DELETE_todo (Some "name_here"%string) 4)).
  repeat constructor; simpl; intuition discriminate.
Defined.

(** ** Seeding *)

Lemma first_live db :
  Sql.first (filter (fun t => Bool.eqb (TodoModel.is_deleted t) false) db)
  = None
  <-> Derived.has_live db = false.
Proof.
  rewrite live_filter. unfold Derived.has_live, Sql.first.
  induction db as [|t db IH]; simpl; [tauto|].
  destruct (Spec.not_deleted t); simpl; [split; discriminate | exact IH].
Qed.

Lemma seed_data_live db now db_now :
  Derived.has_live db = true -> Main.seed_data db now db_now = db.
Proof.
  intro L. unfold Main.seed_data.
  destruct (Sql.first _) eqn:E; [reflexivity|].
  apply first_live in E. congruence.
Qed.

(** [seed_data] only ever appends: a table that holds a live row is left
    as it is; a table without one, empty or all soft deleted, gets five
    rows at its end, all live and all within the constraints of the
    schema; and once it has run, running it again changes nothing. *)
Theorem seed_data_once db now db_now again db_again :
  exists added,
    Main.seed_data db now db_now = db ++ added
    /\ (if Derived.has_live db then added = []
        else List.length added = 5%nat
             /\ Forall (fun t => TodoModel.is_deleted t = false
                                 /\ Derived.row_valid t = true) added)
    /\ Main.seed_data (Main.seed_data db now db_now) again db_again
       = Main.seed_data db now db_now.
Proof.
  unfold Main.seed_data at 1 3 4.
  destruct (Sql.first _) as [t|] eqn:E.
  - exists []. rewrite app_nil_r. split; [reflexivity|]. split.
    + destruct (Derived.has_live db) eqn:L; [reflexivity|].
      apply first_live in L. congruence.
    + unfold Main.seed_data. now rewrite E.
  - pose proof (proj1 (first_live db) E) as L. rewrite L.
    unfold Main.Session.add. cbn [fst]. rewrite <- !app_assoc.
    cbn [app]. eexists. split; [reflexivity|]. split.
    + split; [reflexivity|]. repeat constructor.
    + apply seed_data_live. unfold Derived.has_live.
      rewrite existsb_app. apply orb_true_iff. now right.
Qed.

(** ** What the stored rows always satisfy *)

Lemma row_valid_fields t :
  Derived.row_valid t = true
  <-> Schemas.length_between 3 512 (TodoModel.todo_name t) = true
      /\ Schemas.length_between 1 2000 (TodoModel.todo_description t) = true
      /\ Schemas.is_Priority (TodoModel.priority t) = true
      /\ Schemas.literal Schemas.TodoStatus (TodoModel.status t) = true.
Proof.
  unfold Derived.row_valid. rewrite !andb_true_iff. tauto.
Qed.

Lemma flush_valid now o r :
  TodoModel.flush now o = Return r ->
  (forall v, TodoModel.attr_todo_name o = Some v ->
             Schemas.length_between 3 512 v = true) ->
  (forall v, TodoModel.attr_todo_description o = Some v ->
             Schemas.length_between 1 2000 v = true) ->
  (forall v, TodoModel.attr_priority o = Some v ->
             Schemas.is_Priority v = true) ->
  (forall v, TodoModel.attr_status o = Some v ->
             Schemas.literal Schemas.TodoStatus v = true) ->
  1 <= TodoModel.todo_id (TodoModel.loaded o) ->
  Derived.row_valid r = true /\ 1 <= TodoModel.todo_id r.
Proof.
  intros Hflush Hn Hd Hp Hs Hid. apply flush_fields in Hflush.
  destruct Hflush as (-> & _ & _ & _ & En & Ed & Ep & Es).
  split; [|exact Hid]. apply row_valid_fields. auto.
Qed.

(** Where the attributes of the instance [update_todo] commits come
    from: the row looked up, or the body. *)
Lemma update_todo_attrs db now i payload db' r :
  Main.update_todo db now i payload = Return (db', r) ->
  exists todo o,
    Main.get_or_404 db i false = Return todo
    /\ TodoModel.loaded o = todo
    /\ Main.Session.commit db now o = Return (db', r)
    /\ (TodoModel.attr_todo_name o = Some (TodoModel.todo_name todo)
        \/ Schemas.TodoUpdate.todo_name payload
           = Schemas.Given (TodoModel.attr_todo_name o))
    /\ (TodoModel.attr_todo_description o
        = Some (TodoModel.todo_description todo)
        \/ Schemas.TodoUpdate.todo_description payload
           = Schemas.Given (TodoModel.attr_todo_description o))
    /\ (TodoModel.attr_priority o = Some (TodoModel.priority todo)
        \/ Schemas.TodoUpdate.priority payload
           = Schemas.Given (TodoModel.attr_priority o))
    /\ (TodoModel.attr_status o = Some (TodoModel.status todo)
        \/ Schemas.TodoUpdate.status payload
           = Schemas.Given (TodoModel.attr_status o)).
Proof.
  unfold Main.update_todo. intro H.
  apply bind_return in H. destruct H as (todo & Hget & H).
  apply bind_return in H. destruct H as (o' & Hp & H).
  exists todo. eexists. split; [exact Hget|].
  split; [|split; [exact H|]];
    destruct (Schemas.TodoUpdate.priority payload) as [|[p|]];
    try discriminate; injection Hp as <-;
    destruct (Schemas.TodoUpdate.todo_name payload),
      (Schemas.TodoUpdate.todo_description payload),
      (Schemas.TodoUpdate.status payload),
      (Schemas.TodoUpdate.due_date payload);
    cbn; auto 10.
Qed.

Lemma optional_ok_given {A} (ok : A -> bool) v x :
  Schemas.optional_ok ok (Schemas.Given v) = true -> v = Some x ->
  ok x = true.
Proof. intros H ->. exact H. Qed.

Lemma handle_rows_valid API_KEY engine db now req :
  Forall (fun t => Derived.row_valid t = true /\ 1 <= TodoModel.todo_id t) db ->
  Forall (fun t => Derived.row_valid t = true /\ 1 <= TodoModel.todo_id t)
    (fst (Main.handle API_KEY engine db now req)).
Proof.
  intro Hdb.
  assert (Hrow : forall i incl todo,
             Main.get_or_404 db i incl = Return todo ->
             Schemas.length_between 3 512 (TodoModel.todo_name todo) = true
             /\ Schemas.length_between 1 2000 (TodoModel.todo_description todo)
                = true
             /\ Schemas.is_Priority (TodoModel.priority todo) = true
             /\ Schemas.literal Schemas.TodoStatus (TodoModel.status todo)
                = true
             /\ 1 <= TodoModel.todo_id todo).
  { intros i incl todo H. apply get_or_404_in in H. destruct H as (Hin & _).
    destruct (proj1 (Forall_forall _ _) Hdb _ Hin) as [Hv Hid].
    apply row_valid_fields in Hv. tauto. }
  destruct req as [ | query | format incl | incl | i | key todo | key i payload
                   | key i payload | key i payload | key i | key i ];
    simpl Main.handle; rewrite ?reads_keeps; try exact Hdb;
    apply writes_keeps; try exact Hdb; intros db' a H; route_returned H.
  - injection H as <- <-.
    apply Forall_app. split; [exact Hdb|].
    constructor; [|constructor]. split; [|apply next_id_positive].
    exact Hvalid.
  - apply andb_prop in Hvalid. destruct Hvalid as [_ Hvalid].
    unfold Schemas.TodoBase.valid in Hvalid.
    rewrite !andb_true_iff in Hvalid. destruct Hvalid as [[[Vn Vd] Vp] Vs].
    handler_returned H todo Hin. destruct Hin as (Hin & _).
    destruct (proj1 (Forall_forall _ _) Hdb _ Hin) as [_ Hid].
    eapply commit_keeps; [exact Hdb| |exact H].
    intros r' Hr'.
    apply (flush_valid _ _ _ Hr'); simpl; try (intros v [= <-]); auto.
  - apply andb_prop in Hvalid. destruct Hvalid as [_ Hvalid].
    unfold Schemas.TodoUpdate.valid in Hvalid.
    rewrite !andb_true_iff in Hvalid. destruct Hvalid as [[[Vn Vd] Vp] Vs].
    apply update_todo_attrs in H.
    destruct H as (todo & o & Hget & Hloaded & H & An & Ad & Ap & As').
    destruct (Hrow _ _ _ Hget) as (On & Od & Op & Os & Hid).
    eapply commit_keeps; [exact Hdb| |exact H].
    intros r' Hr'. apply (flush_valid _ _ _ Hr').
    + intros v E. destruct An as [An | An].
      * rewrite An in E. now injection E as <-.
      * rewrite An in Vn. exact (optional_ok_given _ _ _ Vn E).
    + intros v E. destruct Ad as [Ad | Ad].
      * rewrite Ad in E. now injection E as <-.
      * rewrite Ad in Vd. exact (optional_ok_given _ _ _ Vd E).
    + intros v E. destruct Ap as [Ap | Ap].
      * rewrite Ap in E. now injection E as <-.
      * rewrite Ap in Vp. exact (optional_ok_given _ _ _ Vp E).
    + intros v E. destruct As' as [As' | As'].
      * rewrite As' in E. now injection E as <-.
      * rewrite As' in Vs. exact (optional_ok_given _ _ _ Vs E).
    + now rewrite Hloaded.
  - apply andb_prop in Hvalid. destruct Hvalid as [_ Hvalid].
    apply bind_return in H. destruct H as (todo & Hget & H).
    destruct (Hrow _ _ _ Hget) as (On & Od & Op & Os & Hid).
    eapply commit_keeps; [exact Hdb| |exact H].
    intros r' Hr'.
    apply (flush_valid _ _ _ Hr'); simpl; try (intros v [= <-]); auto.
  - apply bind_return in H. destruct H as (todo & Hget & H).
    destruct (Hrow _ _ _ Hget) as (On & Od & Op & Os & Hid).
    eapply commit_keeps; [exact Hdb| |exact H].
    intros r' Hr'.
    apply (flush_valid _ _ _ Hr'); simpl; try (intros v [= <-]); auto.
  - apply bind_return in H. destruct H as (todo & Hget & H).
    destruct (Hrow _ _ _ Hget) as (On & Od & Op & Os & Hid).
    apply bind_return in H. destruct H as ([db'' r] & H & Hret).
    injection Hret as <- <-.
    eapply commit_keeps; [exact Hdb| |exact H].
    intros r' Hr'.
    apply (flush_valid _ _ _ Hr'); simpl; try (intros v [= <-]); auto.
Qed.

Lemma seed_data_rows_valid db now db_now :
  Forall (fun t => Derived.row_valid t = true /\ 1 <= TodoModel.todo_id t) db ->
  Forall (fun t => Derived.row_valid t = true /\ 1 <= TodoModel.todo_id t)
    (Main.seed_data db now db_now).
Proof.
  intro H. unfold Main.seed_data. destruct (Sql.first _); [exact H|].
  repeat (apply add_keeps;
          [|split; [reflexivity | apply next_id_positive]]).
  exact H.
Qed.

Lemma reachable_rows API_KEY engine db :
  Main.reachable API_KEY engine db ->
  Forall (fun t => Derived.row_valid t = true /\ 1 <= TodoModel.todo_id t) db.
Proof.
  induction 1.
  - constructor.
  - now apply seed_data_rows_valid.
  - now apply handle_rows_valid.
Qed.

(** On every table the service reaches, the ids are unique and at least 1,
    so every row passes the path constraint of the per-id routes, and every
    row is within the constraints of [TodoOut]: name of 3 to 512
    characters, description of 1 to 2000, priority 1, 2 or 3, status NEW,
    IN_PROGRESS or DONE. *)
Theorem reachable_rows_valid API_KEY engine db :
  Main.reachable API_KEY engine db ->
  Spec.primary_key db
  /\ Forall (fun t => Derived.row_valid t = true /\ 1 <= TodoModel.todo_id t)
       db.
Proof.
  intro H. split.
  - eapply reachable_primary_key; eauto.
  - eapply reachable_rows; eauto.
Qed.

Lemma reachable_rows_valid_witness :
  Forall (fun t => Derived.row_valid t = true /\ 1 <= TodoModel.todo_id t)
    (fst (Main.handle "name_here" Spec.sqlite (Main.seed_data [] 100 101) 200
            (Main.POST_todos (Some "name_here"%string) Spec.buy_milk))).
Proof.
  apply (reachable_rows_valid "name_here" Spec.sqlite).
  apply Main.reachable_request, Main.reachable_startup, Main.reachable_empty.
Defined.

(** ** The status filter is not validated *)

Lemma no_member_nil {A} (l : list A) : (forall x, ~ In x l) -> l = [].
Proof.
  destruct l as [|x l]; [reflexivity|]. intro H.
  exfalso. apply (H x). now left.
Qed.

(** [status] on a listing is any string: on a table the service reaches,
    a status outside NEW, IN_PROGRESS, DONE is not refused but matches no
    row, so a query that is accepted without the [status] parameter is
    answered with the empty list once it carries such a status. *)
Theorem unknown_status_lists_nothing API_KEY engine db now query s :
  Main.reachable API_KEY engine db ->
  Schemas.literal Schemas.TodoStatus s = false ->
  (exists todos,
      Main.list_todos_route engine db now (Derived.with_status None query)
      = Return todos) ->
  Main.list_todos_route engine db now (Derived.with_status (Some s) query)
  = Return [].
Proof.
  intros Hreach Hs [todos0 H0].
  apply reachable_rows in Hreach. rename Hreach into Hrows.
  unfold Main.list_todos_route in H0 |- *.
  cbn [Derived.with_status Main.ListQuery.limit Main.ListQuery.offset
       Main.ListQuery.priority Main.ListQuery.status Main.ListQuery.q
       Main.ListQuery.overdue Main.ListQuery.sort_by Main.ListQuery.order
       Main.ListQuery.include_deleted] in H0 |- *.
  apply bind_return in H0. destruct H0 as ([] & Hvalid & _).
  rewrite Hvalid. cbn [bind].
  apply validated_true in Hvalid.
  apply andb_prop in Hvalid. destruct Hvalid as [Hvalid _].
  apply andb_prop in Hvalid. destruct Hvalid as [_ Hsort].
  match goal with
  | |- ?call = _ =>
      assert (Hret : exists todos, call = Return todos)
        by (now apply list_todos_returns);
      destruct Hret as [todos Hret];
      assert (Hin : forall t, In t (Spec.returned call) ->
                              TodoModel.status t = s /\ In t db)
  end.
  { intros t Ht. apply returned_in_filters, list_filters_in in Ht.
    destruct Ht as (Hdb & _ & _ & Hstatus & _). split; auto. }
  rewrite Hret in Hin |- *. cbn [Spec.returned] in Hin. f_equal.
  apply no_member_nil. intros t Ht. destruct (Hin t Ht) as [Est Hdb].
  destruct (proj1 (Forall_forall _ _) Hrows _ Hdb) as [Hv _].
  apply row_valid_fields in Hv. destruct Hv as (_ & _ & _ & Hv).
  rewrite Est in Hv. congruence.
Qed.

Lemma unknown_status_lists_nothing_witness :
  Main.list_todos_route Spec.sqlite (Main.seed_data [] 100 101) 200
    (Derived.with_status (Some "done"%string) Spec.no_parameters)
  = Return [].
Proof.
  apply (unknown_status_lists_nothing "name_here" Spec.sqlite
           (Main.seed_data [] 100 101) 200 Spec.no_parameters "done").
  - apply Main.reachable_startup, Main.reachable_empty.
  - reflexivity.
  - eexists. reflexivity.
Defined.

(** ** Pages *)

Lemma firstn_then_next {A} a b (l : list A) :
  firstn a l ++ firstn b (skipn a l) = firstn (a + b) l.
Proof.
  revert l. induction a as [|a IH]; intro l; [reflexivity|].
  destruct l as [|x l]; simpl.
  - now rewrite firstn_nil.
  - now rewrite IH.
Qed.

Lemma window_then_next {A} limit next offset (l : list A) :
  0 <= limit -> 0 <= next -> 0 <= offset ->
  Spec.window limit offset l ++ Spec.window next (offset + limit) l
  = Spec.window (limit + next) offset l.
Proof.
  intros Hl Hn Ho. unfold Spec.window.
  rewrite !Z2Nat.inj_add by lia.
  rewrite (Nat.add_comm (Z.to_nat offset)), <- skipn_skipn.
  apply firstn_then_next.
Qed.

Lemma window_length {A} limit offset (l : list A) :
  Z.of_nat (List.length (Spec.window limit offset l)) <= Z.max 0 limit
  /\ (List.length (Spec.window limit offset l) <= List.length l)%nat
  /\ (Z.of_nat (List.length l) <= offset -> Spec.window limit offset l = []).
Proof.
  unfold Spec.window. rewrite length_firstn, length_skipn.
  repeat split; try lia.
  intro H. rewrite skipn_all2 by lia. apply firstn_nil.
Qed.

(** *** The one sequence ordered by a key without repeats *)

Section UniqueOrder.
Context {A : Type}.
Variable key : A -> Z.

Lemma strictly_sorted l :
  Sorted (fun a b => key a <= key b) l ->
  NoDup (map key l) ->
  StronglySorted (fun a b => key a < key b) l.
Proof.
  intros Hs Hn. apply Sorted_StronglySorted in Hs; [|intros x y z; lia].
  induction Hs as [|x l Hs IH Hx]; [constructor|].
  simpl in Hn. inversion Hn as [|? ? Hnot Hn']; subst.
  constructor; [now apply IH|].
  apply Forall_forall. intros y Hy.
  pose proof (proj1 (Forall_forall _ _) Hx y Hy) as Hle.
  cbv beta in Hle |- *.
  assert (key x <> key y); [|lia].
  intro E. apply Hnot. rewrite E. now apply in_map.
Qed.

Lemma strictly_sorted_unique l l' :
  StronglySorted (fun a b => key a < key b) l ->
  StronglySorted (fun a b => key a < key b) l' ->
  (forall x, In x l <-> In x l') ->
  l = l'.
Proof.
  intros Hl. revert l'.
  induction Hl as [|x l Hl IH Hx]; intros l' Hl' Hsame.
  - destruct l' as [|y l']; [reflexivity|].
    exfalso. apply (Hsame y). now left.
  - destruct Hl' as [|y l' Hl' Hy].
    + exfalso. apply (Hsame x). now left.
    + pose proof (proj1 (Forall_forall _ _) Hx) as Hxs.
      pose proof (proj1 (Forall_forall _ _) Hy) as Hys.
      cbv beta in Hxs, Hys.
      assert (E : x = y).
      { destruct (proj1 (Hsame x) (or_introl eq_refl)) as [E | Hin];
          [now symmetry|].
        destruct (proj2 (Hsame y) (or_introl eq_refl)) as [E | Hin'];
          [exact E|].
        specialize (Hxs _ Hin'). specialize (Hys _ Hin). lia. }
      subst y. f_equal. apply IH; [exact Hl'|].
      intro z. split; intro Hz.
      * destruct (proj1 (Hsame z) (or_intror Hz)) as [E | Hin]; [|exact Hin].
        subst z. specialize (Hxs _ Hz). lia.
      * destruct (proj2 (Hsame z) (or_intror Hz)) as [E | Hin]; [|exact Hin].
        subst z. specialize (Hys _ Hz). lia.
Qed.

Lemma sorted_answer_unique rows l l' :
  NoDup (map key rows) ->
  Permutation l rows -> Permutation l' rows ->
  Sorted (fun a b => key a <= key b) l ->
  Sorted (fun a b => key a <= key b) l' ->
  l = l'.
Proof.
  intros Hn Hp Hp' Hs Hs'.
  apply strictly_sorted_unique.
  - apply strictly_sorted; [exact Hs|].
    apply (Permutation_NoDup (Permutation_sym (Permutation_map key Hp)) Hn).
  - apply strictly_sorted; [exact Hs'|].
    apply (Permutation_NoDup (Permutation_sym (Permutation_map key Hp')) Hn).
  - intro x. split; intro H.
    + apply (Permutation_in x (Permutation_sym Hp')),
        (Permutation_in x Hp), H.
    + apply (Permutation_in x (Permutation_sym Hp)),
        (Permutation_in x Hp'), H.
Qed.

Lemma nodup_map_filter (p : A -> bool) l :
  NoDup (map key l) -> NoDup (map key (filter p l)).
Proof.
  induction l as [|x l IH]; simpl; intro H; [constructor|].
  inversion H as [|? ? Hnot Hn]; subst.
  destruct (p x); simpl; [|now apply IH].
  constructor; [|now apply IH].
  intro Hin. apply Hnot. apply in_map_iff in Hin.
  destruct Hin as (y & E & Hy). apply filter_In in Hy.
  rewrite <- E. apply in_map. tauto.
Qed.
End UniqueOrder.

Lemma nodup_opp (l : list Z) : NoDup l -> NoDup (map Z.opp l).
Proof.
  induction 1 as [|x l Hnot Hn IH]; simpl; constructor; [|exact IH].
  intro H. apply in_map_iff in H. destruct H as (y & E & Hy).
  apply Hnot. now replace x with y by lia.
Qed.

Lemma list_filters_primary_key engine db now priority status q overdue
    include_deleted :
  Spec.primary_key db ->
  Spec.primary_key
    (Main.list_filters engine db now priority status q overdue
       include_deleted).
Proof.
  unfold Spec.primary_key, Main.list_filters. cbv zeta. intro H.
  destruct overdue, q as [[|c s]|], status, priority, include_deleted;
    cbn [negb]; repeat apply nodup_map_filter; exact H.
Qed.

(** Every answer ordered by [todo_id] over the filtered rows of a table
    with a primary key is the sequence [list_query] computes. *)
Lemma ordered_by_id_unique engine db now priority status q overdue order
    include_deleted answer :
  Spec.primary_key db ->
  Derived.ordered_by_id (String.eqb order "desc")
    (Main.list_filters engine db now priority status q overdue
       include_deleted) answer ->
  Main.list_query engine db now priority status q overdue "todo_id" order
    include_deleted = Return answer.
Proof.
  intros Hpk [Hperm Hsorted]. unfold Main.list_query.
  change (TodoModel.getattr "todo_id")
    with (Some (fun r => Sql.VInt (TodoModel.todo_id r))).
  f_equal.
  pose proof (list_filters_primary_key engine db now priority status q overdue
                include_deleted Hpk) as Hn.
  pose proof (order_by_perm engine (fun r => Sql.VInt (TodoModel.todo_id r))
                (String.eqb order "desc")
                (Main.list_filters engine db now priority status q overdue
                   include_deleted)) as Hperm'.
  pose proof (order_by_monotonic engine
                (fun r => Sql.VInt (TodoModel.todo_id r))
                (String.eqb order "desc")
                (Main.list_filters engine db now priority status q overdue
                   include_deleted)) as Hsorted'.
  unfold Spec.monotonic in Hsorted'.
  destruct (String.eqb order "desc").
  - apply f_equal.
    apply (sorted_answer_unique (fun r => - TodoModel.todo_id r)
             (Main.list_filters engine db now priority status q overdue
                include_deleted)).
    + unfold Spec.primary_key in Hn.
      rewrite <- (map_map TodoModel.todo_id Z.opp).
      now apply nodup_opp.
    + exact Hperm'.
    + exact Hperm.
    + eapply sorted_weaken; [|exact Hsorted']. intros a b. simpl. lia.
    + eapply sorted_weaken; [|exact Hsorted]. intros a b. simpl. lia.
  - apply f_equal.
    apply (sorted_answer_unique TodoModel.todo_id
             (Main.list_filters engine db now priority status q overdue
                include_deleted)).
    + exact Hn.
    + exact Hperm'.
    + exact Hperm.
    + exact Hsorted'.
    + exact Hsorted.
Qed.

(** Pages ordered by [todo_id] fit together, whatever the engine does
    with ties, because there are none: on a table with a primary key, take
    any three answers ordered by [todo_id] over the filtered rows, as three
    separate queries would give them.  The listings at [(limit, offset)],
    at [(next, offset + limit)] and at [(limit + next, offset)] are the
    windows of these answers, and the first two, one after the other, are
    the third: no row is skipped and none comes twice. *)
Theorem pages_concatenate
    engine db now limit next offset priority status q overdue order
    include_deleted first second both :
  Spec.primary_key db ->
  0 <= limit -> 0 <= next -> 0 <= offset ->
  Derived.ordered_by_id (String.eqb order "desc")
    (Main.list_filters engine db now priority status q overdue
       include_deleted) first ->
  Derived.ordered_by_id (String.eqb order "desc")
    (Main.list_filters engine db now priority status q overdue
       include_deleted) second ->
  Derived.ordered_by_id (String.eqb order "desc")
    (Main.list_filters engine db now priority status q overdue
       include_deleted) both ->
  Main.list_todos engine db now limit offset priority status q overdue
    "todo_id" order include_deleted
  = Return (Spec.window limit offset first)
  /\ Main.list_todos engine db now next (offset + limit) priority status q
       overdue "todo_id" order include_deleted
     = Return (Spec.window next (offset + limit) second)
  /\ Main.list_todos engine db now (limit + next) offset priority status q
       overdue "todo_id" order include_deleted
     = Return (Spec.window (limit + next) offset both)
  /\ (Spec.window limit offset first
      ++ Spec.window next (offset + limit) second
      = Spec.window (limit + next) offset both).
Proof.
  intros Hpk Hl Hn Ho H1 H2 H3.
  apply (ordered_by_id_unique _ _ _ _ _ _ _ _ _ _ Hpk) in H1, H2, H3.
  rewrite !list_todos_window. rewrite H1 in H2, H3 |- *.
  injection H2 as <-. injection H3 as <-.
  cbn [bind]. repeat split. now apply window_then_next.
Qed.

Lemma pages_concatenate_witness :
  Spec.window 4 0 (rev Spec.eleven) ++ Spec.window 10 (0 + 4) (rev Spec.eleven)
  = Spec.window (4 + 10) 0 (rev Spec.eleven)
  /\ Main.list_todos Spec.sqlite Spec.eleven 100 10 (0 + 4) None None None
       false "todo_id" "desc" false
     = Return (Spec.window 10 (0 + 4) (rev Spec.eleven)).
Proof.
  assert (H : Derived.ordered_by_id (String.eqb "desc" "desc")
                (Main.list_filters Spec.sqlite Spec.eleven 100 None None None
                   false false) (rev Spec.eleven)).
  { split.
    - apply Permutation_sym, Permutation_rev.
    - repeat constructor; simpl; lia. }
  destruct (pages_concatenate Spec.sqlite Spec.eleven 100 4 10 0 None None
              None false "desc" false (rev Spec.eleven) (rev Spec.eleven)
              (rev Spec.eleven))
    as (_ & Hsecond & _ & Hpages); try lia; try exact H.
  - repeat constructor; simpl; intuition discriminate.
  - now split.
Defined.

(** The window of [GET /todos].  The response carries at most [limit]
    rows, and so at most 100, or it is a 422 without rows; a [limit] below
    1 or above 100, or a negative [offset], is answered 422; and when
    [offset] is at or past the size of the filtered set, the response
    carries no row. *)
Theorem listing_bounded API_KEY engine db now query full :
  let response :=
    snd (Main.handle API_KEY engine db now (Main.GET_todos query)) in
  let limit := Main.default 10 (Main.ListQuery.limit query) in
  let offset := Main.default 0 (Main.ListQuery.offset query) in
  (Z.of_nat (List.length (Derived.todos_of response)) <= Z.min 100 limit
   \/ (Main.status_code response = 422 /\ Derived.todos_of response = []))
  /\ (limit < 1 \/ 100 < limit \/ offset < 0 ->
      Main.status_code response = 422)
  /\ (Main.list_query engine db now (Main.ListQuery.priority query)
        (Main.ListQuery.status query) (Main.ListQuery.q query)
        (Main.default false (Main.ListQuery.overdue query))
        (Main.default "todo_id"%string (Main.ListQuery.sort_by query))
        (Main.default "asc"%string (Main.ListQuery.order query))
        (Main.default false (Main.ListQuery.include_deleted query))
      = Return full ->
      Z.of_nat (List.length full) <= offset ->
      Derived.todos_of response = []).
Proof.
  intros response limit offset. subst response. cbn [Main.handle].
  unfold Main.reads.
  destruct (Main.list_todos_route engine db now query) as [todos|e] eqn:H;
    cbn [bind snd].
  - cbn [Derived.todos_of Main.content Main.status_code].
    unfold Main.list_todos_route in H.
    apply bind_return in H. destruct H as ([] & Hvalid & H).
    apply validated_true in Hvalid.
    rewrite !andb_true_iff in Hvalid.
    destruct Hvalid as [[[[[[H1 H100] H0] _] _] _] _].
    apply Z.leb_le in H1, H100, H0. fold limit in H1, H100. fold offset in H0.
    rewrite list_todos_window in H.
    apply bind_return in H. destruct H as (full' & Hfull & H).
    injection H as <-. fold limit offset.
    pose proof (window_length limit offset full') as (Hlen & _ & Hpast).
    split; [left; lia|]. split; [lia|].
    intros Hq Hsize. rewrite Hq in Hfull. injection Hfull as <-.
    now apply Hpast.
  - apply list_todos_route_raises in H. subst e.
    split; [right; now split|]. split; [reflexivity|]. reflexivity.
Qed.

Lemma listing_bounded_witness :
  Main.status_code
    (snd (Main.handle "name_here" Spec.sqlite Spec.eleven 100
            (Main.GET_todos (Derived.page 101 0))))
  = 422
  /\ Derived.todos_of
       (snd (Main.handle "name_here" Spec.sqlite Spec.eleven 100
               (Main.GET_todos (Derived.page 5 11))))
     = [].
Proof.
  split.
  - apply (listing_bounded "name_here" Spec.sqlite Spec.eleven 100
             (Derived.page 101 0) []).
    simpl. lia.
  - apply (listing_bounded "name_here" Spec.sqlite Spec.eleven 100
             (Derived.page 5 11)
             (Sql.order_by Spec.sqlite
                (fun t => Sql.VInt (TodoModel.todo_id t)) false Spec.eleven)).
    + reflexivity.
    + simpl. lia.
Defined.

(** ** Export, both formats *)

Lemma export_csv_row_from_json t :
  Main.export_csv_row t
  = map (fun field => Derived.cell_of_json (snd field))
      (Main.export_json_object t).
Proof. unfold Main.export_csv_row. simpl. now destruct (TodoModel.due_date t). Qed.

(** The two export formats carry the same records.  For the same table
    and [include_deleted], the CSV is the header followed by one row per
    object of the JSON array, in the same order; a row holds the object's
    values in field order, null as the empty string and a datetime through
    [isoformat()], and the header holds the object's field names.  With no
    [format] the route answers as with json, and a format other than json
    and csv is refused with a validation error. *)
Theorem export_formats_agree engine db include_deleted format :
  exists objects,
    Main.export_todos engine db "json" include_deleted
    = Main.ExportJson objects
    /\ Main.export_todos engine db "csv" include_deleted
       = Main.ExportCsv
           (Main.export_csv_header
            :: map (map (fun field => Derived.cell_of_json (snd field)))
                 objects)
    /\ Forall (fun object =>
                 map Main.CStr (Spec.keys object) = Main.export_csv_header)
         objects
    /\ Main.export_todos_route engine db None (Some include_deleted)
       = Return (Main.ExportJson objects)
    /\ (Schemas.literal Schemas.ExportFormat format = false ->
        Main.export_todos_route engine db (Some format) (Some include_deleted)
        = Raise RequestValidationError).
Proof.
  exists (map Main.export_json_object
            (Main.export_rows engine db include_deleted)).
  unfold Main.export_todos. cbn [String.eqb Ascii.eqb Bool.eqb].
  split; [reflexivity|]. split.
  - change (String.eqb "csv" "json") with false. cbv iota.
    f_equal. f_equal. rewrite map_map. apply map_ext.
    intro t. apply export_csv_row_from_json.
  - split.
    + apply Forall_forall. intros o Ho. apply in_map_iff in Ho.
      destruct Ho as (t & <- & _). reflexivity.
    + split; [reflexivity|]. intro Hf.
      unfold Main.export_todos_route. cbn [Main.default].
      now rewrite Hf.
Qed.

Lemma export_formats_agree_witness :
  Main.export_todos_route Spec.sqlite Spec.eleven (Some "xml"%string)
    (Some true)
  = Raise RequestValidationError.
Proof.
  destruct (export_formats_agree Spec.sqlite Spec.eleven true "xml")
    as (objects & _ & _ & _ & _ & H).
  now apply H.
Defined.

(** ** Statistics against the other reads *)

Lemma list_filters_length engine db now priority status q overdue
    include_deleted :
  (List.length
     (Main.list_filters engine db now priority status q overdue
        include_deleted)
   <= List.length (Spec.counted db include_deleted))%nat.
Proof.
  unfold Main.list_filters, Spec.counted. cbv zeta.
  set (base :=
         if negb include_deleted
         then filter (fun t => Bool.eqb (TodoModel.is_deleted t) false) db
         else db).
  replace (if include_deleted then db else filter Spec.not_deleted db)
    with base
    by (subst base; destruct include_deleted;
        [reflexivity | apply live_filter]).
  clearbody base.
  destruct overdue, q as [[|c s]|], status, priority;
    repeat (eapply Nat.le_trans; [apply filter_length_le|]);
    apply Nat.le_refl.
Qed.

(** The total of the statistics is the number of records the export
    carries for the same [include_deleted], in either format, and no
    listing with that [include_deleted] returns more rows than it. *)
Theorem stats_match_export
    engine db now limit offset priority status q overdue sort_by order
    include_deleted format :
  Schemas.TodoStats.total (Main.todos_stats db include_deleted)
  = Derived.exported (Main.export_todos engine db format include_deleted)
  /\ Z.of_nat
       (List.length
          (Spec.returned
             (Main.list_todos engine db now limit offset priority status q
                overdue sort_by order include_deleted)))
     <= Schemas.TodoStats.total (Main.todos_stats db include_deleted).
Proof.
  rewrite todos_stats_counted. cbn [Schemas.TodoStats.total]. split.
  - unfold Main.export_todos.
    destruct (String.eqb format "json"); cbn [Derived.exported tl];
      rewrite length_map;
      now rewrite (Permutation_length (export_rows_perm engine db include_deleted)).
  - rewrite list_todos_window. unfold Main.list_query.
    destruct (TodoModel.getattr sort_by) as [col|];
      cbn [bind Spec.returned]; [|simpl; lia].
    pose proof (window_length limit offset
                  (Sql.order_by engine col (String.eqb order "desc")
                     (Main.list_filters engine db now priority status q
                        overdue include_deleted))) as (_ & Hlen & _).
    rewrite (Permutation_length (order_by_perm engine col _ _)) in Hlen.
    pose proof (list_filters_length engine db now priority status q overdue
                  include_deleted).
    lia.
Qed.

(** ** Partial update and restore, the other cases *)

(** [update_todo] on a live row of a table with a primary key, when the
    body gives no explicit null for a required column: every field the
    body gives a value for holds that value in the row returned. *)
Theorem partial_update_sets db now t payload :
  Spec.primary_key db ->
  In t db ->
  TodoModel.is_deleted t = false ->
  Spec.no_required_null payload = true ->
  exists db' t',
    Main.update_todo db now (TodoModel.todo_id t) payload = Return (db', t')
    /\ (forall v, Schemas.TodoUpdate.todo_name payload
                  = Schemas.Given (Some v) ->
                  TodoModel.todo_name t' = v)
    /\ (forall v, Schemas.TodoUpdate.todo_description payload
                  = Schemas.Given (Some v) ->
                  TodoModel.todo_description t' = v)
    /\ (forall v, Schemas.TodoUpdate.priority payload
                  = Schemas.Given (Some v) ->
                  TodoModel.priority t' = v)
    /\ (forall v, Schemas.TodoUpdate.status payload = Schemas.Given (Some v) ->
                  TodoModel.status t' = v)
    /\ (forall v, Schemas.TodoUpdate.due_date payload = Schemas.Given v ->
                  TodoModel.due_date t' = v)
    /\ (forall other, In other db ->
          TodoModel.todo_id other <> TodoModel.todo_id t -> In other db').
Proof.
  intros Hpk Hin Hlive Hnull. unfold Main.update_todo.
  rewrite (get_or_404_found db t false Hpk Hin (fun _ => Hlive)).
  cbn [bind]. unfold Spec.no_required_null in Hnull.
  destruct payload as [n d p s dd]. simpl in Hnull |- *.
  destruct n as [|[n|]], d as [|[d|]], p as [|[p|]], s as [|[s|]];
    try discriminate; cbn [bind];
    destruct dd as [|dd];
    (eexists; eexists;
     split; [apply commit_returns; reflexivity|];
     repeat match goal with |- _ /\ _ => split end;
     try (intros v [= <-]; reflexivity);
     try (intros v [=]);
     intros other Ho Hne; now apply overwrite_others).
Qed.

Lemma partial_update_sets_witness :
  exists db' t',
    Main.update_todo [Spec.row 1 "task" false] 100 1
      {| Schemas.TodoUpdate.todo_name := Schemas.Given (Some "errand"%string);
         Schemas.TodoUpdate.todo_description := Schemas.Omitted;
         Schemas.TodoUpdate.priority := Schemas.Given (Some 1);
         Schemas.TodoUpdate.status := Schemas.Omitted;
         Schemas.TodoUpdate.due_date := Schemas.Omitted |}
    = Return (db', t')
    /\ TodoModel.todo_name t' = "errand"%string
    /\ TodoModel.priority t' = 1.
Proof.
  destruct (partial_update_sets [Spec.row 1 "task" false] 100
              (Spec.row 1 "task" false)
              {| Schemas.TodoUpdate.todo_name :=
                   Schemas.Given (Some "errand"%string);
                 Schemas.TodoUpdate.todo_description := Schemas.Omitted;
                 Schemas.TodoUpdate.priority := Schemas.Given (Some 1);
                 Schemas.TodoUpdate.status := Schemas.Omitted;
                 Schemas.TodoUpdate.due_date := Schemas.Omitted |})
    as (db' & t' & H & Hname & _ & Hprio & _).
  - repeat constructor; simpl; tauto.
  - now left.
  - reflexivity.
  - reflexivity.
  - exists db', t'. split; [exact H|]. split.
    + now apply Hname.
    + now apply Hprio.
Defined.

(** [restore_todo] does not ask for the row to be soft deleted: on a live
    row of a table with a primary key it returns the row, still live and
    equal to what it was in every field but, possibly, [updated_at], and
    every other row is as it was. *)
Theorem restore_todo_live db now t :
  Spec.primary_key db ->
  In t db ->
  TodoModel.is_deleted t = false ->
  exists db' r,
    Main.restore_todo db now (TodoModel.todo_id t) = Return (db', r)
    /\ In r db'
    /\ r = Spec.touched (TodoModel.updated_at r) t
    /\ (forall other, In other db ->
          TodoModel.todo_id other <> TodoModel.todo_id t -> In other db')
    /\ map TodoModel.todo_id db' = map TodoModel.todo_id db.
Proof.
  intros Hpk Hin Hlive. unfold Main.restore_todo.
  rewrite (get_or_404_found db t true Hpk Hin) by discriminate.
  cbn [bind]. eexists. eexists. split.
  - apply commit_returns. reflexivity.
  - split; [now apply (overwrite_in db _ t)|].
    split; [unfold Spec.touched; cbn; now rewrite Hlive|].
    split; [|apply overwrite_ids].
    intros other Ho Hne. now apply overwrite_others.
Qed.

Lemma restore_todo_live_witness :
  exists db' r,
    Main.restore_todo [Spec.row 1 "task" false] 100 1 = Return (db', r)
    /\ r = Spec.touched (TodoModel.updated_at r) (Spec.row 1 "task" false).
Proof.
  destruct (restore_todo_live [Spec.row 1 "task" false] 100
              (Spec.row 1 "task" false))
    as (db' & r & H & _ & Hr & _).
  - repeat constructor; simpl; tauto.
  - now left.
  - reflexivity.
  - exists db', r. now split.
Defined.
